(** * Pedal: the routing API (backend/main.py) and the incident loader
      (heatmap.py), embedded shallowly.

    Python values are modelled as the code uses them: a [float] is a
    rational or one of the three special values, a [dict] used as a map
    is a [gmap], an object is a reference into a store, a [try]/[except]
    block is a computation that returns either an exception or a value
    together with the state it leaves behind.

    The collaborators that main.py imports (the analyzers, the weight
    calibrator, the graph builder and the route calculator) are not part
    of the sources: their methods are parameters of the handlers, and
    what the properties need of the route calculator is modelled from
    its description (the comparison of routes, the statistics snapshot,
    the Dijkstra and A* searches).

    The first part holds the definitions, the second the properties. *)

From Stdlib Require Import QArith ZArith.
From stdpp Require Import gmap strings list fin_maps.

Open Scope string_scope.

(** ** Python floats *)

Inductive pyfloat : Type :=
| Fin (q : Q)
| PInf
| NInf
| NaN.

(** [a <= b] on floats: every comparison with NaN is false. *)
Definition fle (a b : pyfloat) : bool :=
  match a, b with
  | NaN, _ | _, NaN => false
  | NInf, _ => true
  | _, PInf => true
  | Fin x, Fin y => Qle_bool x y
  | Fin _, NInf => false
  | PInf, _ => false
  end.

(** [lo <= v <= hi], the chained comparison. *)
Definition fbetween (lo v hi : pyfloat) : bool := fle lo v && fle v hi.

(** A float is a number of the closed interval [lo, hi]. *)
Definition in_range (lo hi : Q) (v : pyfloat) : Prop :=
  ∃ q, v = Fin q ∧ (lo <= q)%Q ∧ (q <= hi)%Q.


(** ** Exceptions

    Only classes derived from [Exception] are modelled: they are the ones
    an [except Exception] clause catches. *)

Inductive exn : Type :=
| FileNotFoundError (msg : string)
| ValueError (msg : string)
| RuntimeError (msg : string)
| TypeError (msg : string)
| KeyError (msg : string)
| IndexError (msg : string)
| AttributeError (msg : string)
| JSONDecodeError (msg : string)
| ValidationError (errors : list (string * string))
| HTTPException (status_code : nat) (detail : string)
| OtherException (msg : string).

(** [str(e)] *)
Definition str (e : exn) : string :=
  match e with
  | FileNotFoundError m | ValueError m | RuntimeError m | TypeError m
  | KeyError m | IndexError m | AttributeError m | JSONDecodeError m
  | OtherException m => m
  | ValidationError errs =>
      "validation error: " ++ String.concat "; " (map (λ p, p.1 ++ ": " ++ p.2) errs)
  | HTTPException _ d => d
  end.

Definition is_ok {E A} (r : E + A) : Prop :=
  match r with inr _ => True | inl _ => False end.

(** ** Request models (pydantic) *)

Definition valid_types : list string := ["fastest"; "safe"; "bike"; "safe_bike"].
Definition valid_algorithms : list string := ["dijkstra"; "astar"].

(** The outcome of one [@validator]: the [ValueError] message or the value. *)
Definition field_error {A} (field : string) (r : string + A) : list (string * string) :=
  match r with
  | inl msg => [(field, msg)]
  | inr _ => []
  end.

Module RouteRequestModel.

Record t : Type := mk {
  start_lat : pyfloat;
  start_lon : pyfloat;
  end_lat : pyfloat;
  end_lon : pyfloat;
  route_type : string;
  algorithm : string
}.

Definition validate_latitude (v : pyfloat) : string + pyfloat :=
  if negb (fbetween (Fin (-90)) v (Fin 90))
  then inl "Latitude must be between -90 and 90"
  else inr v.

Definition validate_longitude (v : pyfloat) : string + pyfloat :=
  if negb (fbetween (Fin (-180)) v (Fin 180))
  then inl "Longitude must be between -180 and 180"
  else inr v.

Definition validate_route_type (v : string) : string + string :=
  if negb (bool_decide (v ∈ valid_types))
  then inl "Route type must be one of: ['fastest', 'safe', 'bike', 'safe_bike']"
  else inr v.

Definition validate_algorithm (v : string) : string + string :=
  if negb (bool_decide (v ∈ valid_algorithms))
  then inl "Algorithm must be one of: ['dijkstra', 'astar']"
  else inr v.

(** [RouteRequestModel(start_lat=.., .., algorithm=..)].  Every field is
    validated and the failures are collected into one [ValidationError];
    an omitted [algorithm] takes the default, on which the validator is
    not run. *)
Definition new (start_lat start_lon end_lat end_lon : pyfloat)
    (route_type : string) (algorithm : option string) : exn + t :=
  let r1 := validate_latitude start_lat in
  let r2 := validate_longitude start_lon in
  let r3 := validate_latitude end_lat in
  let r4 := validate_longitude end_lon in
  let r5 := validate_route_type route_type in
  let r6 := match algorithm with
            | None => inr "dijkstra"
            | Some a => validate_algorithm a
            end in
  match r1, r2, r3, r4, r5, r6 with
  | inr a, inr b, inr c, inr d, inr e, inr f => inr (mk a b c d e f)
  | _, _, _, _, _, _ =>
      inl (ValidationError
             (field_error "start_lat" r1 ++ field_error "start_lon" r2 ++
              field_error "end_lat" r3 ++ field_error "end_lon" r4 ++
              field_error "route_type" r5 ++ field_error "algorithm" r6))
  end.

End RouteRequestModel.

Module RouteCompareRequestModel.

Record t : Type := mk {
  start_lat : pyfloat;
  start_lon : pyfloat;
  end_lat : pyfloat;
  end_lon : pyfloat;
  route_types : option (list string);
  algorithm : string
}.

Definition validate_latitude (v : pyfloat) : string + pyfloat :=
  if negb (fbetween (Fin (-90)) v (Fin 90))
  then inl "Latitude must be between -90 and 90"
  else inr v.

Definition validate_longitude (v : pyfloat) : string + pyfloat :=
  if negb (fbetween (Fin (-180)) v (Fin 180))
  then inl "Longitude must be between -180 and 180"
  else inr v.

(** [route_types] and [algorithm] carry no validator in this model:
    an omitted field takes its default, a given one is kept as it is. *)
Definition new (start_lat start_lon end_lat end_lon : pyfloat)
    (route_types : option (list string)) (algorithm : option string) : exn + t :=
  let r1 := validate_latitude start_lat in
  let r2 := validate_longitude start_lon in
  let r3 := validate_latitude end_lat in
  let r4 := validate_longitude end_lon in
  match r1, r2, r3, r4 with
  | inr a, inr b, inr c, inr d =>
      inr (mk a b c d route_types (default "dijkstra" algorithm))
  | _, _, _, _ =>
      inl (ValidationError
             (field_error "start_lat" r1 ++ field_error "start_lon" r2 ++
              field_error "end_lat" r3 ++ field_error "end_lon" r4))
  end.

End RouteCompareRequestModel.

(** ** Python objects and the store

    A cell of the store holds a dictionary: a [dict] object, or the
    attribute dictionary of an instance.  Objects are passed by
    reference ([loc]), so two names can denote the same cell. *)

#[local] Set Warnings "-register-all".

Inductive pyval : Type :=
| VNone
| VBool (b : bool)
| VInt (z : Z)
| VFloat (f : pyfloat)
| VStr (s : string)
| VList (l : list pyval)
| VDict (d : list (string * pyval)).

Definition loc : Type := positive.

Abbreviation pydict := (gmap string pyval).
Abbreviation Heap := (gmap loc (gmap string pyval)).

Fixpoint assoc_get (k : string) (d : list (string * pyval)) : option pyval :=
  match d with
  | [] => None
  | (k', v) :: d' => if String.eqb k k' then Some v else assoc_get k d'
  end.

(** [o.get(k, dflt)] *)
Definition py_get (o : pyval) (k : string) (dflt : pyval) : exn + pyval :=
  match o with
  | VDict d => inr (default dflt (assoc_get k d))
  | _ => inl (AttributeError "object has no attribute 'get'")
  end.

(** [o[k]] for a string key *)
Definition py_getitem (o : pyval) (k : string) : exn + pyval :=
  match o with
  | VDict d =>
      match assoc_get k d with
      | Some v => inr v
      | None => inl (KeyError k)
      end
  | VList _ | VStr _ => inl (TypeError "indices must be integers")
  | _ => inl (TypeError "object is not subscriptable")
  end.

(** [len(o)] *)
Definition py_len (o : pyval) : exn + Z :=
  match o with
  | VDict d => inr (Z.of_nat (length d))
  | VList l => inr (Z.of_nat (length l))
  | VStr s => inr (Z.of_nat (String.length s))
  | _ => inl (TypeError "object has no len()")
  end.

(** Truth value of an object in a condition. *)
Definition truthy (o : pyval) : bool :=
  match o with
  | VNone => false
  | VBool b => b
  | VInt z => negb (z =? 0)%Z
  | VFloat (Fin q) => negb (Qeq_bool q 0)
  | VFloat _ => true
  | VStr s => negb (String.eqb s "")
  | VList l => negb (bool_decide (length l = 0))
  | VDict d => negb (bool_decide (length d = 0))
  end.

(** [a - b] on floats *)
Definition fsub (a b : pyfloat) : pyfloat :=
  match a, b with
  | NaN, _ | _, NaN => NaN
  | Fin x, Fin y => Fin (x - y)
  | PInf, PInf | NInf, NInf => NaN
  | PInf, _ | _, NInf => PInf
  | NInf, _ | _, PInf => NInf
  end.

(** ** Computations: state and exceptions

    A computation runs on a state and returns an exception or a value,
    with the state it has reached: what was written before a [raise]
    stays written. *)

Definition M (S A : Type) : Type := S → (exn + A) * S.

Definition ret {S A} (a : A) : M S A := λ s, (inr a, s).

Definition raise {S A} (e : exn) : M S A := λ s, (inl e, s).

Definition bind {S A B} (m : M S A) (k : A → M S B) : M S B :=
  λ s, match m s with
       | (inl e, s') => (inl e, s')
       | (inr a, s') => k a s'
       end.

(** [try: body except Exception as e: handler e] *)
Definition try_except {S A} (body : M S A) (handler : exn → M S A) : M S A :=
  λ s, match body s with
       | (inl e, s') => handler e s'
       | (inr a, s') => (inr a, s')
       end.

Definition lift {S A} (r : exn + A) : M S A := λ s, (r, s).

Notation "'let!' x ':=' m 'in' k" := (bind m (λ x, k))
  (at level 10, x name, m at level 100, k at level 200).
Notation "'do!' m 'in' k" := (bind m (λ _, k))
  (at level 10, m at level 100, k at level 200).

(** A method of a collaborator: it may read and write the store. *)
Abbreviation method A := (M (gmap loc (gmap string pyval)) A).

(** ** The types of route_calculator.py that main.py handles *)

(** Modelled from the spec: [RouteRequest], declared in route_calculator.py
    (missing): "{start coordinate, end coordinate, route type, algorithm
    choice}", with the six keywords that main.py passes to its
    constructor. *)
Record RouteRequest : Type := mkRouteRequest {
  rq_start_lat : pyfloat;
  rq_start_lon : pyfloat;
  rq_end_lat : pyfloat;
  rq_end_lon : pyfloat;
  rq_route_type : string;
  rq_algorithm : string
}.

(** Modelled from the spec: [RouteResult], declared in route_calculator.py
    (missing): "{ordered sequence of (lat, lon) forming the path, total
    distance meters, estimated time minutes, safety score, bike coverage
    percent, route type, algorithm used, computation duration, node
    count, optional error message}", under the attribute names that
    main.py reads and with the types of [RouteResponseModel]. *)
Record RouteResult : Type := mkRouteResult {
  route : list (list pyfloat);
  distance_meters : pyfloat;
  estimated_time_minutes : pyfloat;
  safety_score : pyfloat;
  bike_coverage_percent : pyfloat;
  route_type : string;
  algorithm_used : string;
  calculation_time_ms : pyfloat;
  node_count : Z;
  error_message : option string
}.

(** The response models of main.py. *)
Record RouteResponseModel : Type := mkRouteResponseModel {
  resp_route : list (list pyfloat);
  resp_distance_meters : pyfloat;
  resp_estimated_time_minutes : pyfloat;
  resp_safety_score : pyfloat;
  resp_bike_coverage_percent : pyfloat;
  resp_route_type : string;
  resp_algorithm_used : string;
  resp_calculation_time_ms : pyfloat;
  resp_node_count : Z;
  resp_error_message : option string
}.

Record HealthResponseModel : Type := mkHealthResponseModel {
  status : string;
  health_initialized : bool;
  system_info : gmap string pyval;
  graph_stats : option (gmap string pyval);
  errors : list string
}.

(** ** The collaborators of main.py

    crime_analyzer.py, osm_analyzer.py, weight_calibrator.py,
    graph_builder.py and route_calculator.py are imported by main.py and
    are not part of this development: the behaviour of each of their
    methods is a parameter.  An instance is a reference into the store;
    a call returns a value or raises, and may change the store. *)

Module CrimeDataAnalyzer.
Record class : Type := {
  new : method loc;
  analyze_crime_data : loc → string → string → method pyval
}.
End CrimeDataAnalyzer.

Module OSMAnalyzer.
Record class : Type := {
  new : method loc;
  analyze_osm_networks : loc → method pyval;
  (** [None] or a graph *)
  export_network_for_routing : loc → method (option loc);
  (** [combined_graph.number_of_nodes()] *)
  number_of_nodes : loc → method Z
}.
End OSMAnalyzer.

Module WeightCalibrator.
Record class : Type := {
  new : method loc;
  master_calibration : loc → string → string → method loc
}.
End WeightCalibrator.

Module WeightedGraphBuilder.
Record class : Type := {
  new : method loc;
  load_base_graph : loc → loc → method unit;
  load_calibrated_weights : loc → loc → method unit;
  set_crime_analyzer : loc → loc → method unit;
  create_weighted_graphs : loc → method pyval;
  (** graph name ↦ validation result *)
  validate_graphs : loc → method (list (string * pyval))
}.
End WeightedGraphBuilder.

Module RouteCalculator.
Record class : Type := {
  new : method loc;
  initialize : loc → loc → loc → method bool;
  calculate_route : loc → RouteRequest → method RouteResult;
  compare_routes :
    loc → pyfloat → pyfloat → pyfloat → pyfloat → list string → string →
    method (gmap string RouteResult);
  (** returns a reference to the statistics dictionary *)
  get_route_statistics : loc → method loc
}.
End RouteCalculator.

Record Imports : Type := {
  crime_analyzer_py : CrimeDataAnalyzer.class;
  osm_analyzer_py : OSMAnalyzer.class;
  weight_calibrator_py : WeightCalibrator.class;
  graph_builder_py : WeightedGraphBuilder.class;
  route_calculator_py : RouteCalculator.class;
  (** [Path.exists] *)
  path_exists : string → bool;
  (** [backend_dir] and [backend_dir.parent] *)
  backend_dir : string;
  data_dir : string;
  (** [sys.version] *)
  sys_version : string;
  (** the two readings of [time.time()] in [initialize_system] *)
  startup_start : pyfloat;
  startup_end : pyfloat
}.

(** ** Global application state *)

Record AppState : Type := mkAppState {
  initialized : bool;
  crime_analyzer : option loc;
  osm_analyzer : option loc;
  graph_builder : option loc;
  route_calculator : option loc;
  calibrated_weights : option loc;
  initialization_time : pyfloat;
  startup_errors : list string
}.

(** The value of [app_state] when the module is loaded. *)
Definition app_state : AppState :=
  {| initialized := false;
     crime_analyzer := None;
     osm_analyzer := None;
     graph_builder := None;
     route_calculator := None;
     calibrated_weights := None;
     initialization_time := Fin 0;
     startup_errors := [] |}.

(** A call that a handler makes on the route calculator. *)
Inductive Call : Type :=
| CalculateRoute (request : RouteRequest)
| CompareRoutes (start_lat start_lon end_lat end_lon : pyfloat)
    (route_types : list string) (algorithm : string)
| GetRouteStatistics.

(** What a handler runs on: [app_state], the store, and the calls made
    so far on the route calculator (kept to state which calls a handler
    makes; the code does not read it). *)
Record World : Type := mkWorld {
  app : AppState;
  heap : gmap loc (gmap string pyval);
  calls : list Call
}.

Definition get_app : M World AppState := λ w, (inr (app w), w).

Definition modify_app (f : AppState → AppState) : M World unit :=
  λ w, (inr tt, {| app := f (app w); heap := heap w; calls := calls w |}).

Definition get_heap : M World (gmap loc (gmap string pyval)) := λ w, (inr (heap w), w).

Definition modify_heap (f : gmap loc (gmap string pyval) → gmap loc (gmap string pyval)) : M World unit :=
  λ w, (inr tt, {| app := app w; heap := f (heap w); calls := calls w |}).

(** A call on a collaborator. *)
Definition call {A} (m : method A) : M World A :=
  λ w, let '(r, h) := m (heap w) in
       (r, {| app := app w; heap := h; calls := calls w |}).

(** A call on the route calculator, recorded in [calls]. *)
Definition invoke {A} (c : Call) (m : method A) : M World A :=
  λ w, let '(r, h) := m (heap w) in
       (r, {| app := app w; heap := h; calls := calls w ++ [c] |}).

Definition store_initialized (b : bool) (st : AppState) : AppState :=
  {| initialized := b;
     crime_analyzer := crime_analyzer st;
     osm_analyzer := osm_analyzer st;
     graph_builder := graph_builder st;
     route_calculator := route_calculator st;
     calibrated_weights := calibrated_weights st;
     initialization_time := initialization_time st;
     startup_errors := startup_errors st |}.

Definition store_crime_analyzer (o : loc) (st : AppState) : AppState :=
  {| initialized := initialized st;
     crime_analyzer := Some o;
     osm_analyzer := osm_analyzer st;
     graph_builder := graph_builder st;
     route_calculator := route_calculator st;
     calibrated_weights := calibrated_weights st;
     initialization_time := initialization_time st;
     startup_errors := startup_errors st |}.

Definition store_osm_analyzer (o : loc) (st : AppState) : AppState :=
  {| initialized := initialized st;
     crime_analyzer := crime_analyzer st;
     osm_analyzer := Some o;
     graph_builder := graph_builder st;
     route_calculator := route_calculator st;
     calibrated_weights := calibrated_weights st;
     initialization_time := initialization_time st;
     startup_errors := startup_errors st |}.

Definition store_graph_builder (o : loc) (st : AppState) : AppState :=
  {| initialized := initialized st;
     crime_analyzer := crime_analyzer st;
     osm_analyzer := osm_analyzer st;
     graph_builder := Some o;
     route_calculator := route_calculator st;
     calibrated_weights := calibrated_weights st;
     initialization_time := initialization_time st;
     startup_errors := startup_errors st |}.

Definition store_route_calculator (o : loc) (st : AppState) : AppState :=
  {| initialized := initialized st;
     crime_analyzer := crime_analyzer st;
     osm_analyzer := osm_analyzer st;
     graph_builder := graph_builder st;
     route_calculator := Some o;
     calibrated_weights := calibrated_weights st;
     initialization_time := initialization_time st;
     startup_errors := startup_errors st |}.

Definition store_calibrated_weights (o : loc) (st : AppState) : AppState :=
  {| initialized := initialized st;
     crime_analyzer := crime_analyzer st;
     osm_analyzer := osm_analyzer st;
     graph_builder := graph_builder st;
     route_calculator := route_calculator st;
     calibrated_weights := Some o;
     initialization_time := initialization_time st;
     startup_errors := startup_errors st |}.

Definition store_initialization_time (t : pyfloat) (st : AppState) : AppState :=
  {| initialized := initialized st;
     crime_analyzer := crime_analyzer st;
     osm_analyzer := osm_analyzer st;
     graph_builder := graph_builder st;
     route_calculator := route_calculator st;
     calibrated_weights := calibrated_weights st;
     initialization_time := t;
     startup_errors := startup_errors st |}.

(** [app_state['startup_errors'].append(msg)] *)
Definition append_startup_error (msg : string) (st : AppState) : AppState :=
  {| initialized := initialized st;
     crime_analyzer := crime_analyzer st;
     osm_analyzer := osm_analyzer st;
     graph_builder := graph_builder st;
     route_calculator := route_calculator st;
     calibrated_weights := calibrated_weights st;
     initialization_time := initialization_time st;
     startup_errors := startup_errors st ++ [msg] |}.

(** [[name for name, result in validation_results.items() if not result['valid']]] *)
Fixpoint invalid_graphs_of (validation_results : list (string * pyval)) : exn + list string :=
  match validation_results with
  | [] => inr []
  | (name, result) :: rest =>
      match py_getitem result "valid" with
      | inl e => inl e
      | inr valid =>
          match invalid_graphs_of rest with
          | inl e => inl e
          | inr names => inr (if negb (truthy valid) then name :: names else names)
          end
      end
  end.

(** [RouteResponseModel(route=result.route, ...)] *)
Definition to_response (result : RouteResult) : RouteResponseModel :=
  {| resp_route := route result;
     resp_distance_meters := distance_meters result;
     resp_estimated_time_minutes := estimated_time_minutes result;
     resp_safety_score := safety_score result;
     resp_bike_coverage_percent := bike_coverage_percent result;
     resp_route_type := route_type result;
     resp_algorithm_used := algorithm_used result;
     resp_calculation_time_ms := calculation_time_ms result;
     resp_node_count := node_count result;
     resp_error_message := error_message result |}.

(** [obj.method(...)] on a name of [app_state] that may hold [None] *)
Definition attr_of (o : option loc) (name : string) : exn + loc :=
  match o with
  | Some l => inr l
  | None => inl (AttributeError ("'NoneType' object has no attribute '" ++ name ++ "'"))
  end.

Definition not_initialized : exn :=
  HTTPException 503 "System not initialized. Check /health for details.".

Section Main.

Variable imports : Imports.

#[local] Abbreviation crime := (crime_analyzer_py imports).
#[local] Abbreviation osm := (osm_analyzer_py imports).
#[local] Abbreviation calibrator_cls := (weight_calibrator_py imports).
#[local] Abbreviation builder := (graph_builder_py imports).
#[local] Abbreviation calculator := (route_calculator_py imports).

(** *** Startup *)

(** The [try] block of [initialize_system]. *)
Definition initialize_components : M World unit :=
  let startup_start := startup_start imports in
    (let indy_csv_path := data_dir imports ++ "/IndianapolisCrime.csv" in
     let wl_json_path := data_dir imports ++ "/WLCrime.json" in
     do! (if negb (path_exists imports indy_csv_path)
          then raise (FileNotFoundError ("Indianapolis crime data not found: " ++ indy_csv_path))
          else ret tt) in
     do! (if negb (path_exists imports wl_json_path)
          then raise (FileNotFoundError ("West Lafayette crime data not found: " ++ wl_json_path))
          else ret tt) in
     let! crime_analyzer := call (CrimeDataAnalyzer.new crime) in
     let! crime_results :=
       call (CrimeDataAnalyzer.analyze_crime_data crime crime_analyzer indy_csv_path wl_json_path) in
     do! modify_app (store_crime_analyzer crime_analyzer) in
     do! lift (py_get crime_results "total_crime_count" (VInt 0)) in
     let! osm_analyzer := call (OSMAnalyzer.new osm) in
     let! osm_results := call (OSMAnalyzer.analyze_osm_networks osm osm_analyzer) in
     do! modify_app (store_osm_analyzer osm_analyzer) in
     do! lift (py_get osm_results "total_cities" (VInt 0)) in
     let! calibrator := call (WeightCalibrator.new calibrator_cls) in
     let! calibrated_weights :=
       call (WeightCalibrator.master_calibration calibrator_cls calibrator indy_csv_path wl_json_path) in
     do! modify_app (store_calibrated_weights calibrated_weights) in
     let! graph_builder := call (WeightedGraphBuilder.new builder) in
     let! combined_graph := call (OSMAnalyzer.export_network_for_routing osm osm_analyzer) in
     let! combined_graph :=
       match combined_graph with
       | None => raise (ValueError "No valid road network available from OSM analysis")
       | Some g =>
           let! n := call (OSMAnalyzer.number_of_nodes osm g) in
           if (n =? 0)%Z
           then raise (ValueError "No valid road network available from OSM analysis")
           else ret g
       end in
     do! call (WeightedGraphBuilder.load_base_graph builder graph_builder combined_graph) in
     do! call (WeightedGraphBuilder.load_calibrated_weights builder graph_builder calibrated_weights) in
     do! call (WeightedGraphBuilder.set_crime_analyzer builder graph_builder crime_analyzer) in
     let! weighted_graphs := call (WeightedGraphBuilder.create_weighted_graphs builder graph_builder) in
     do! modify_app (store_graph_builder graph_builder) in
     do! lift (py_len weighted_graphs) in
     let! validation_results := call (WeightedGraphBuilder.validate_graphs builder graph_builder) in
     do! lift (invalid_graphs_of validation_results) in
     let! route_calculator := call (RouteCalculator.new calculator) in
     let! ok := call (RouteCalculator.initialize calculator route_calculator graph_builder crime_analyzer) in
     do! (if negb ok
          then raise (RuntimeError "Failed to initialize route calculator")
          else ret tt) in
     do! modify_app (store_route_calculator route_calculator) in
     do! modify_app (store_initialized true) in
     modify_app (store_initialization_time (fsub (startup_end imports) startup_start))).

Definition initialize_system : M World unit :=
  try_except initialize_components
    (λ e,
       let error_msg := "System initialization failed: " ++ str e in
       do! modify_app (append_startup_error error_msg) in
       modify_app (store_initialized false)).

(** *** GET /health *)

Definition health_check : M World HealthResponseModel :=
  let! st := get_app in
  let system_info : gmap string pyval :=
    <["backend_directory" := VStr (backend_dir imports)]>
      (<["python_version" := VStr (sys_version imports)]>
         (<["initialization_time_seconds" := VFloat (initialization_time st)]> ∅)) in
  let! found :=
    match initialized st, route_calculator st with
    | true, Some rc =>
        try_except
          (let! stats := invoke GetRouteStatistics (RouteCalculator.get_route_statistics calculator rc) in
           ret (Some stats, system_info))
          (λ e, ret (None, <["stats_error" := VStr (str e)]> system_info))
    | _, _ => ret (None, system_info)
    end in
  let! st := get_app in
  let! h := get_heap in
  let status :=
    if initialized st && negb (bool_decide (startup_errors st ≠ []))
    then "healthy" else "unhealthy" in
  ret {| status := status;
         health_initialized := initialized st;
         system_info := found.2;
         graph_stats := (λ l, default ∅ (h !! l)) <$> found.1;
         errors := startup_errors st |}.

(** *** GET /stats *)

(** [stats.update({...})] on the dictionary that [stats] refers to. *)
Definition dict_update (stats : loc) (items : list (string * pyval)) : M World unit :=
  modify_heap (λ h, <[stats := foldl (λ d kv, <[kv.1 := kv.2]> d) (default ∅ (h !! stats)) items]> h).

(** [obj.calibration_stats]: an attribute read. *)
Definition getattr (obj : loc) (name : string) : M World pyval :=
  let! h := get_heap in
  match default ∅ (h !! obj) !! name with
  | Some v => ret v
  | None => raise (AttributeError ("object has no attribute '" ++ name ++ "'"))
  end.

(** The part of the [try] block of [get_system_stats] that follows the
    call on the route calculator: "Add additional system information" and
    "Add crime analysis stats if available". *)
Definition add_system_information (stats : loc) : M World (gmap string pyval) :=
  let! st := get_app in
  do! dict_update stats
        [("initialization_time_seconds", VFloat (initialization_time st));
         ("initialized", VBool (initialized st));
         ("startup_errors", VList (VStr <$> startup_errors st))] in
  do! match calibrated_weights st with
      | Some cw =>
          let! calibration_stats := getattr cw "calibration_stats" in
          let! crime_stats := lift (py_get calibration_stats "crime_analysis" (VDict [])) in
          let! total := lift (py_get crime_stats "total_crime_count" (VInt 0)) in
          let! indy := lift (py_get crime_stats "indy_crime_count" (VInt 0)) in
          let! wl := lift (py_get crime_stats "wl_crime_count" (VInt 0)) in
          let! weights := lift (py_get crime_stats "crime_type_weights" (VDict [])) in
          let! mapped := lift (py_len weights) in
          dict_update stats
            [("crime_analysis",
              VDict [("total_crimes", total);
                     ("indy_crimes", indy);
                     ("wl_crimes", wl);
                     ("crime_types_mapped", VInt mapped)])]
      | None => ret tt
      end in
  let! h := get_heap in
  ret (default ∅ (h !! stats)).

Definition get_system_stats : M World (gmap string pyval) :=
  let! st := get_app in
  if negb (initialized st) then raise not_initialized
  else
    try_except
      (let! rc := lift (attr_of (route_calculator st) "get_route_statistics") in
       let! stats := invoke GetRouteStatistics (RouteCalculator.get_route_statistics calculator rc) in
       add_system_information stats)
      (λ e, raise (HTTPException 500 ("Error retrieving statistics: " ++ str e))).

(** *** POST /route *)

Definition calculate_route (request : RouteRequestModel.t) : M World RouteResponseModel :=
  let! st := get_app in
  if negb (initialized st) then raise not_initialized
  else
    try_except
      (let internal_request :=
         {| rq_start_lat := RouteRequestModel.start_lat request;
            rq_start_lon := RouteRequestModel.start_lon request;
            rq_end_lat := RouteRequestModel.end_lat request;
            rq_end_lon := RouteRequestModel.end_lon request;
            rq_route_type := RouteRequestModel.route_type request;
            rq_algorithm := RouteRequestModel.algorithm request |} in
       let! rc := lift (attr_of (route_calculator st) "calculate_route") in
       let! result :=
         invoke (CalculateRoute internal_request)
                (RouteCalculator.calculate_route calculator rc internal_request) in
       ret (to_response result))
      (λ e, raise (HTTPException 500 ("Route calculation failed: " ++ str e))).

(** *** POST /route/compare *)

Definition compare_routes (request : RouteCompareRequestModel.t)
    : M World (gmap string RouteResponseModel) :=
  let! st := get_app in
  if negb (initialized st) then raise not_initialized
  else
    try_except
      (let route_types :=
         match RouteCompareRequestModel.route_types request with
         | None => ["fastest"; "safe"; "bike"; "safe_bike"]
         | Some route_types => route_types
         end in
       let! rc := lift (attr_of (route_calculator st) "compare_routes") in
       let! results :=
         invoke (CompareRoutes (RouteCompareRequestModel.start_lat request)
                               (RouteCompareRequestModel.start_lon request)
                               (RouteCompareRequestModel.end_lat request)
                               (RouteCompareRequestModel.end_lon request)
                               route_types
                               (RouteCompareRequestModel.algorithm request))
                (RouteCalculator.compare_routes calculator rc
                   (RouteCompareRequestModel.start_lat request)
                   (RouteCompareRequestModel.start_lon request)
                   (RouteCompareRequestModel.end_lat request)
                   (RouteCompareRequestModel.end_lon request)
                   route_types
                   (RouteCompareRequestModel.algorithm request)) in
       let response :=
         map_fold (λ route_type result response, <[route_type := to_response result]> response)
                  ∅ results in
       ret response)
      (λ e, raise (HTTPException 500 ("Route comparison failed: " ++ str e))).

End Main.

(** ** RouteCalculator, from its contract

    route_calculator.py is not among the sources; the two definitions
    below describe the methods of [RouteCalculator] that the handlers'
    properties depend on. *)

Section RouteCalculatorContract.

(** Graph nodes, step 1 (node snapping) and steps 2-5 (search and
    reduction for one route type and algorithm); each fails with the
    message of its error. *)
Variable node : Type.
Variable snap : pyfloat → pyfloat → string + node.
Variable search : node → node → string → string → string + RouteResult.

(** Modelled from the spec: "a RouteResult carrying only an error
    message" (the constructor is in route_calculator.py, missing); the
    other fields are empty or zero. *)
Definition error_result (route_type algorithm msg : string) : RouteResult :=
  {| route := [];
     distance_meters := Fin 0;
     estimated_time_minutes := Fin 0;
     safety_score := Fin 0;
     bike_coverage_percent := Fin 0;
     route_type := route_type;
     algorithm_used := algorithm;
     calculation_time_ms := Fin 0;
     node_count := 0%Z;
     error_message := Some msg |}.

(** Modelled from the spec: the entry of one requested route type,
    "independently a success or a RouteResult carrying only an error
    message": "node-snapping and search failures are caught at the Route
    Calculator boundary". *)
Definition compare_entry (endpoints : string + node * node)
    (route_type algorithm : string) : RouteResult :=
  match endpoints with
  | inl msg => error_result route_type algorithm msg
  | inr (s, e) =>
      match search s e route_type algorithm with
      | inl msg => error_result route_type algorithm msg
      | inr result => result
      end
  end.

(** Modelled from the spec: step 1 "once", for the two coordinates of a
    request. *)
Definition snap_endpoints (start_lat start_lon end_lat end_lon : pyfloat)
    : string + node * node :=
  match snap start_lat start_lon, snap end_lat end_lon with
  | inr s, inr e => inr (s, e)
  | inl msg, _ => inl msg
  | _, inl msg => inl msg
  end.

(** Modelled from the spec: [RouteCalculator.compare_routes], whose source
    (route_calculator.py) is missing.  It "runs step 1 once (snapping is
    algorithm/variant-independent) and step 2-5 once per requested route
    type; a failure on one route type must not abort the others - each
    entry is independently a success or a RouteResult carrying only an
    error message, never a global exception", and it returns a
    "mapping(route_type -> RouteResult)". *)
Definition spec_compare_routes (start_lat start_lon end_lat end_lon : pyfloat)
    (route_types : list string) (algorithm : string) : method (gmap string RouteResult) :=
  let endpoints := snap_endpoints start_lat start_lon end_lat end_lon in
  ret (foldl (λ results route_type,
                <[route_type := compare_entry endpoints route_type algorithm]> results)
             ∅ route_types).

End RouteCalculatorContract.

(** Modelled from the spec: [RouteCalculator.get_route_statistics], whose
    source (route_calculator.py) is missing.  It is "read-only
    introspection over graph sizes, variant validity, and calibration
    provenance; must not trigger recomputation" and yields a "structured
    diagnostic snapshot": a call either raises and leaves the store as it
    is, or returns a dictionary of its own, every object that existed
    being left as it is. *)
Definition read_only_snapshot (m : method loc) : Prop :=
  ∀ h : gmap loc (gmap string pyval),
    (∃ e, m h = (inl e, h)) ∨
    (∃ l stats, h !! l = None ∧ m h = (inr l, <[l := stats]> h)).

(** An instance of the contract: the snapshot copies the dictionary held
    at [summary] into a new cell. *)
Definition snapshot_of (summary : loc) : method loc :=
  λ h, let l := fresh (dom h) in
       (inr l, <[l := default ∅ (h !! summary)]> h).

(** A method outside the contract: it hands out its own dictionary. *)
Definition alias_of (summary : loc) : method loc := λ h, (inr summary, h).

(** ** The search of the Route Calculator, from its description

    route_calculator.py is not among the sources.  A weighted graph
    variant holds one cost per directed edge; nodes are identified by
    numbers; costs are integers (a fixed-point reading of the scalar
    cost). *)

(** Modelled from the spec: the id of a "RoadNode". *)
Abbreviation node := nat.

(** Modelled from the spec: a "WeightedGraphVariant", the directed edges
    (source, target) with the cost of each. *)
Abbreviation WeightedGraphVariant := (list (nat * nat * Z)).

(** Modelled from the spec: an entry of the "priority queue keyed by
    accumulated cost" (to which A* adds the heuristic): the key, the node,
    and the cost accumulated on the way to the node. *)
Record Entry : Type := mkEntry {
  key : Z;
  at_node : node;
  accumulated : Z
}.

(** Modelled from the spec: the order of the priority queue, by key,
    "ties broken by smaller node id". *)
Definition entry_le (a b : Entry) : bool :=
  (key a <? key b)%Z || ((key a =? key b)%Z && (at_node a <=? at_node b)%nat).

(** Modelled from the spec: the pop of the priority queue, which removes
    a least entry of the frontier. *)
Fixpoint pop_min (frontier : list Entry) : option (Entry * list Entry) :=
  match frontier with
  | [] => None
  | e :: rest =>
      match pop_min rest with
      | None => Some (e, [])
      | Some (m, rest') =>
          if entry_le e m then Some (e, rest) else Some (m, e :: rest')
      end
  end.

(** Modelled from the spec: the edges that leave a node, each with its
    "single scalar traversal cost". *)
Definition out_edges (graph : WeightedGraphVariant) (n : node) : list (node * node * Z) :=
  filter (λ e, e.1.1 = n) graph.

(** Modelled from the spec: what a search returns, the total cost of the
    route or [NoRouteFoundError], with the nodes visited.  [OutOfFuel] is
    the value of a run that is cut short; [dijkstra] and [astar] never
    return it. *)
Inductive SearchResult : Type :=
| Found (total_cost : Z) (visited : list node)
| NoRouteFoundError (visited : list node)
| OutOfFuel.

(** Modelled from the spec: the "node count visited" attached to a
    result. *)
Definition nodes_visited (r : SearchResult) : nat :=
  match r with
  | Found _ visited | NoRouteFoundError visited => length visited
  | OutOfFuel => 0
  end.

Section Search.

Variable graph : WeightedGraphVariant.

(** The heuristic: an estimate of the remaining cost to the goal. *)
Variable heuristic : node → Z.

Variable goal : node.

(** Modelled from the spec: the entries pushed when [n] is visited with
    accumulated cost [g], one per edge that leaves [n]. *)
Definition pushes (n : node) (g : Z) : list Entry :=
  (λ e, mkEntry (g + e.2 + heuristic e.1.2) e.1.2 (g + e.2)) <$> out_edges graph n.

(** Modelled from the spec: the search of section 4.3, steps 2 and 3
    (route_calculator.py is missing): a "priority queue keyed by
    accumulated cost, ties broken by smaller node id" for Dijkstra and
    the "same queue" with the heuristic added to the key for A*; each
    call has "its own search frontier and visited-set state"; the
    "search ends when the goal node is popped from the frontier" and "if
    the frontier empties before reaching the goal" it fails "with
    NoRouteFoundError".  The result carries the "node count visited". *)
Fixpoint search (fuel : nat) (frontier : list Entry) (visited : list node) : SearchResult :=
  match fuel with
  | 0 => OutOfFuel
  | S fuel' =>
      match pop_min frontier with
      | None => NoRouteFoundError visited
      | Some (e, rest) =>
          if bool_decide (at_node e ∈ visited) then search fuel' rest visited
          else if bool_decide (at_node e = goal) then Found (accumulated e) (at_node e :: visited)
          else search fuel' (rest ++ pushes (at_node e) (accumulated e)) (at_node e :: visited)
      end
  end.

End Search.

(** Modelled from the spec: "Dijkstra (uniform-cost, priority queue keyed
    by accumulated cost ...)".  Every edge is expanded at most once, so
    the fuel is never used up. *)
Definition dijkstra (graph : WeightedGraphVariant) (start goal : node) : SearchResult :=
  search graph (λ _, 0%Z) goal (2 + length graph) [mkEntry 0 start 0] [].

(** Modelled from the spec: "A* (same queue, heuristic = great-circle
    distance to goal scaled by the minimum possible speed in the
    variant ...)"; the heuristic is a parameter. *)
Definition astar (graph : WeightedGraphVariant) (heuristic : node → Z)
    (start goal : node) : SearchResult :=
  search graph heuristic goal (2 + length graph) [mkEntry (heuristic start) start 0] [].

(** A path from [s], with its total cost. *)
Inductive path (graph : WeightedGraphVariant) (s : node) : node → Z → Prop :=
| path_start : path graph s s 0
| path_step v w c total :
    path graph s v total → (v, w, c) ∈ graph → path graph s w (total + c).

(** "The heuristic must never overestimate true remaining cost." *)
Definition admissible (graph : WeightedGraphVariant) (heuristic : node → Z) (goal : node) : Prop :=
  ∀ n total, path graph n goal total → (heuristic n <= total)%Z.

(** The heuristic obeys the triangle inequality on every edge. *)
Definition consistent (graph : WeightedGraphVariant) (heuristic : node → Z) : Prop :=
  ∀ u v c, (u, v, c) ∈ graph → (heuristic u <= c + heuristic v)%Z.

(** Costs are "never negative". *)
Definition nonnegative (graph : WeightedGraphVariant) : Prop :=
  ∀ u v c, (u, v, c) ∈ graph → (0 <= c)%Z.

(** The total cost of a cheapest path from [s] to [t]. *)
Definition cheapest (graph : WeightedGraphVariant) (s t : node) (total : Z) : Prop :=
  path graph s t total ∧ ∀ total', path graph s t total' → (total <= total')%Z.

(** ** heatmap.py: [load_json_crime_data]

    What [json.load] returns is a [pyval]: [None], a bool, a number, a
    string, a list or a dict with string keys. *)

Definition ebind {A B} (m : exn + A) (k : A → exn + B) : exn + B :=
  match m with
  | inl e => inl e
  | inr a => k a
  end.

Notation "'let?' x ':=' m 'in' k" := (ebind m (λ x, k))
  (at level 10, x name, m at level 100, k at level 200).

(** [needle in s] on strings *)
Definition is_substring (needle s : string) : bool :=
  match String.index 0 needle s with
  | Some _ => true
  | None => false
  end.

(** [needle in o] for a string [needle] *)
Definition py_contains (needle : string) (o : pyval) : exn + bool :=
  match o with
  | VDict d => inr (match assoc_get needle d with Some _ => true | None => false end)
  | VList l =>
      inr (existsb (λ v, match v with VStr s => String.eqb needle s | _ => false end) l)
  | VStr s => inr (is_substring needle s)
  | _ => inl (TypeError "argument is not iterable")
  end.

(** [o[i]] for an integer index; no key of a parsed JSON object is an integer *)
Definition py_index (o : pyval) (i : nat) : exn + pyval :=
  match o with
  | VList l =>
      match l !! i with
      | Some v => inr v
      | None => inl (IndexError "list index out of range")
      end
  | VStr s =>
      match String.get i s with
      | Some c => inr (VStr (String c EmptyString))
      | None => inl (IndexError "string index out of range")
      end
  | VDict _ => inl (KeyError "0")
  | _ => inl (TypeError "object is not subscriptable")
  end.

(** The elements that [for x in o] visits. *)
Definition py_iter (o : pyval) : exn + list pyval :=
  match o with
  | VList l => inr l
  | VDict d => inr ((λ kv, VStr kv.1) <$> d)
  | VStr s => inr ((λ c, VStr (String c EmptyString)) <$> String.list_ascii_of_string s)
  | _ => inl (TypeError "object is not iterable")
  end.

(** [o.get(k)] *)
Definition py_get_none (o : pyval) (k : string) : exn + pyval := py_get o k VNone.

(** A row of the DataFrame. *)
Record Row : Type := mkRow {
  id : pyval;
  ccn : pyval;
  date : pyval;
  latitude : pyval;
  longitude : pyval;
  city : pyval;
  state : pyval;
  address : pyval;
  incident_type : pyval;
  parent_incident_type : pyval;
  parent_incident_type_id : pyval;
  narrative : pyval;
  agency_id : pyval;
  customer_id : pyval
}.

Definition is_nan (v : pyval) : bool :=
  match v with
  | VFloat NaN | VNone => true
  | _ => false
  end.

(** [column >= bound] and [column <= bound] on a numeric column *)
Definition col_ge (v : pyval) (bound : Q) : bool :=
  match v with
  | VFloat f => fle (Fin bound) f
  | _ => false
  end.

Definition col_le (v : pyval) (bound : Q) : bool :=
  match v with
  | VFloat f => fle f (Fin bound)
  | _ => false
  end.

Section LoadJson.

(** [open(path)] followed by [json.load]: the parsed document or the
    exception raised ([FileNotFoundError], [JSONDecodeError], ...). *)
Variable read_json : string → exn + pyval.

(** The number that pandas reads in a string, if it reads one. *)
Variable parse_number : string → option pyfloat.

(** [pd.to_numeric(column, errors='coerce')], on one value: what is not a
    number and cannot be parsed as one becomes NaN. *)
Definition to_numeric (v : pyval) : pyval :=
  match v with
  | VInt z => VFloat (Fin (inject_Z z))
  | VFloat f => VFloat f
  | VBool b => VFloat (Fin (if b then 1 else 0))
  | VStr s => VFloat (default NaN (parse_number s))
  | VNone | VList _ | VDict _ => VFloat NaN
  end.

(** The body of the loop over the incidents: the record of an incident
    that has a location with coordinates. *)
Definition incident_record (incident : pyval) : exn + option Row :=
  let? has_location := py_contains "location" incident in
  let? has_coordinates :=
    if has_location
    then let? location := py_getitem incident "location" in
         py_contains "coordinates" location
    else inr false in
  if has_coordinates then
    let? location := py_getitem incident "location" in
    let? coords := py_getitem location "coordinates" in
    let? longitude := py_index coords 0 in
    let? latitude := py_index coords 1 in
    let? id := py_get_none incident "id" in
    let? ccn := py_get_none incident "ccn" in
    let? date := py_get_none incident "date" in
    let? city := py_get_none incident "city" in
    let? state := py_get_none incident "state" in
    let? address := py_get_none incident "blockizedAddress" in
    let? incident_type := py_get_none incident "incidentType" in
    let? parent_incident_type := py_get_none incident "parentIncidentType" in
    let? parent_incident_type_id := py_get_none incident "parentIncidentTypeId" in
    let? narrative := py_get_none incident "narrative" in
    let? agency_id := py_get_none incident "agencyId" in
    let? customer_id := py_get_none incident "customerId" in
    inr (Some {| id := id; ccn := ccn; date := date;
                 latitude := latitude; longitude := longitude;
                 city := city; state := state; address := address;
                 incident_type := incident_type;
                 parent_incident_type := parent_incident_type;
                 parent_incident_type_id := parent_incident_type_id;
                 narrative := narrative; agency_id := agency_id;
                 customer_id := customer_id |})
  else inr None.

(** [for incident in incidents: ... records.append(record)] *)
Fixpoint collect_records (incidents : list pyval) (records : list Row) : exn + list Row :=
  match incidents with
  | [] => inr records
  | incident :: rest =>
      let? r := incident_record incident in
      collect_records rest (match r with Some record => records ++ [record] | None => records end)
  end.

(** The two [pd.to_numeric] assignments. *)
Definition numeric_coordinates (r : Row) : Row :=
  {| id := id r; ccn := ccn r; date := date r;
     latitude := to_numeric (latitude r);
     longitude := to_numeric (longitude r);
     city := city r; state := state r; address := address r;
     incident_type := incident_type r;
     parent_incident_type := parent_incident_type r;
     parent_incident_type_id := parent_incident_type_id r;
     narrative := narrative r; agency_id := agency_id r;
     customer_id := customer_id r |}.

(** [df.dropna(subset=['latitude', 'longitude'])] *)
Definition dropna (df : list Row) : list Row :=
  filter (λ r, negb (is_nan (latitude r)) && negb (is_nan (longitude r)) = true) df.

(** The filter on the coordinate ranges. *)
Definition in_window (r : Row) : bool :=
  col_ge (latitude r) 20 && col_le (latitude r) 55 &&
  col_ge (longitude r) (-140) && col_le (longitude r) (-60).

Definition LoadResult : Type := list Row * string * string * string * string.

(** The [try] block, from the document returned by [json.load] on. *)
Definition process (data : pyval) : exn + option LoadResult :=
  let? has_result := py_contains "result" data in
  let? has_list :=
    if has_result
    then let? result := py_getitem data "result" in py_contains "list" result
    else inr false in
  let? has_incidents :=
    if has_list
    then let? result := py_getitem data "result" in
         let? lst := py_getitem result "list" in
         py_contains "incidents" lst
    else inr false in
  if has_incidents then
    let? result := py_getitem data "result" in
    let? lst := py_getitem result "list" in
    let? incidents := py_getitem lst "incidents" in
    let? _n := py_len incidents in
    let? items := py_iter incidents in
    let? records := collect_records items [] in
    let df := records in
    if bool_decide (length df = 0) then inr None
    else
      let df := numeric_coordinates <$> df in
      let df := dropna df in
      let df := filter (λ r, in_window r = true) df in
      inr (Some (df, "latitude", "longitude", "parent_incident_type", "date"))
  else inr None.

(** The [try] block. *)
Definition load_body (json_file_path : string) : exn + option LoadResult :=
  let? data := read_json json_file_path in
  process data.

(** [load_json_crime_data]: the [try] block under its three [except]
    clauses, each of which returns [None]. *)
Definition load_json_crime_data (json_file_path : string) : exn + option LoadResult :=
  match load_body json_file_path with
  | inr r => inr r
  | inl (FileNotFoundError _) => inr None
  | inl (JSONDecodeError _) => inr None
  | inl _ => inr None
  end.

End LoadJson.

(** ** Notions used to state the properties *)

(** The document has the nested structure result / list / incidents. *)
Definition has_incidents (data : pyval) : Prop :=
  ∃ result lst,
    py_contains "result" data = inr true ∧
    py_getitem data "result" = inr result ∧
    py_contains "list" result = inr true ∧
    py_getitem result "list" = inr lst ∧
    py_contains "incidents" lst = inr true.

(** The incidents that the loop visits. *)
Definition incidents_of (data : pyval) (items : list pyval) : Prop :=
  ∃ result lst incidents,
    py_getitem data "result" = inr result ∧
    py_getitem result "list" = inr lst ∧
    py_getitem lst "incidents" = inr incidents ∧
    py_iter incidents = inr items.

(** The coordinates of a row are numbers of the window
    20 <= latitude <= 55, -140 <= longitude <= -60. *)
Definition coordinates_in_window (row : Row) : Prop :=
  ∃ lat lon,
    latitude row = VFloat (Fin lat) ∧ longitude row = VFloat (Fin lon) ∧
    (20 <= lat)%Q ∧ (lat <= 55)%Q ∧ (-140 <= lon)%Q ∧ (lon <= -60)%Q.

(** A computation that leaves [startup_errors] as it is. *)
Definition keeps_startup_errors {A} (m : M World A) : Prop :=
  ∀ w, startup_errors (app (m w).2) = startup_errors (app w).

(** A computation that writes to no cell of the store other than [l], and
    leaves [app_state] and the recorded calls as they are. *)
Definition writes_only {A} (l : loc) (m : M World A) : Prop :=
  ∀ w, app (m w).2 = app w ∧ calls (m w).2 = calls w ∧
       ∀ l', l' ≠ l → heap (m w).2 !! l' = heap w !! l'.

(** The state of a search from [start]: what holds between two
    iterations of the loop. *)
Record search_inv (graph : WeightedGraphVariant) (heuristic : node → Z)
    (start goal : node) (frontier : list Entry) (visited : list node) : Prop := {
  inv_start : start ∈ visited ∨ mkEntry (heuristic start) start 0 ∈ frontier;
  inv_visited :
    ∀ v, v ∈ visited →
         ∃ g, path graph start v g ∧
              (∀ total, path graph start v total → (g <= total)%Z) ∧
              (∀ w c, (v, w, c) ∈ graph → w ∉ visited →
                      mkEntry (g + c + heuristic w) w (g + c) ∈ frontier) ∧
              (∀ e, e ∈ frontier → (g + heuristic v <= key e)%Z);
  inv_frontier :
    ∀ e, e ∈ frontier →
         key e = (accumulated e + heuristic (at_node e))%Z ∧
         path graph start (at_node e) (accumulated e);
  inv_goal : goal ∉ visited;
  inv_nodup : NoDup visited
}.

(** What a finished search has established. *)
Definition search_post (graph : WeightedGraphVariant) (heuristic : node → Z)
    (start goal : node) (r : SearchResult) : Prop :=
  match r with
  | Found total visited =>
      cheapest graph start goal total ∧ NoDup visited ∧ goal ∈ visited ∧
      (∀ v, v ∈ visited → v = goal ∨
            ∃ g, path graph start v g ∧ (g + heuristic v <= total + heuristic goal)%Z) ∧
      (∀ n g, path graph start n g → n ∉ visited →
              (total + heuristic goal <= g + heuristic n)%Z)
  | NoRouteFoundError visited =>
      (∀ total, ¬ path graph start goal total) ∧ NoDup visited ∧
      (∀ v, v ∈ visited → ∃ g, path graph start v g) ∧
      (∀ n g, path graph start n g → n ∈ visited)
  | OutOfFuel => True
  end.

(** ** A small deployment

    Concrete collaborators, on which the handlers can be run. *)

(** A constructor: a new cell with the given attributes. *)
Definition alloc (attrs : gmap string pyval) : method loc :=
  λ h, let l := fresh (dom h) in (inr l, <[l := attrs]> h).

Definition sample_snap (lat lon : pyfloat) : string + Z :=
  if fbetween (Fin 40) lat (Fin 41) && fbetween (Fin (-88)) lon (Fin (-86))
  then inr 1%Z
  else inl "coordinate is too far from the road network".

Definition sample_search (s e : Z) (route_type algorithm : string) : string + RouteResult :=
  if bool_decide (route_type ∈ valid_types)
  then inr {| route := [[Fin 40; Fin (-87)]];
              distance_meters := Fin 0;
              estimated_time_minutes := Fin 0;
              safety_score := Fin 100;
              bike_coverage_percent := Fin 0;
              route_type := route_type;
              algorithm_used := algorithm;
              calculation_time_ms := Fin 1;
              node_count := 1%Z;
              error_message := None |}
  else inl ("no graph for route type " ++ route_type).

Definition sample_route_calculator : RouteCalculator.class :=
  {| RouteCalculator.new := alloc (<["graphs" := VInt 4]> ∅);
     RouteCalculator.initialize := λ _ _ _, ret true;
     RouteCalculator.calculate_route := λ _ rq,
       ret (compare_entry Z sample_search
              (snap_endpoints Z sample_snap (rq_start_lat rq) (rq_start_lon rq)
                 (rq_end_lat rq) (rq_end_lon rq))
              (rq_route_type rq) (rq_algorithm rq));
     RouteCalculator.compare_routes := λ _, spec_compare_routes Z sample_snap sample_search;
     RouteCalculator.get_route_statistics := snapshot_of |}.

Definition sample_imports (files_present : bool) : Imports :=
  {| crime_analyzer_py :=
       {| CrimeDataAnalyzer.new := alloc ∅;
          CrimeDataAnalyzer.analyze_crime_data := λ _ _ _,
            ret (VDict [("total_crime_count", VInt 3)]) |};
     osm_analyzer_py :=
       {| OSMAnalyzer.new := alloc ∅;
          OSMAnalyzer.analyze_osm_networks := λ _, ret (VDict [("total_cities", VInt 2)]);
          OSMAnalyzer.export_network_for_routing := λ _,
            let! g := alloc ∅ in ret (Some g);
          OSMAnalyzer.number_of_nodes := λ _, ret 2%Z |};
     weight_calibrator_py :=
       {| WeightCalibrator.new := alloc ∅;
          WeightCalibrator.master_calibration := λ _ _ _,
            alloc (<["calibration_stats" :=
                       VDict [("crime_analysis",
                               VDict [("total_crime_count", VInt 3);
                                      ("indy_crime_count", VInt 2);
                                      ("wl_crime_count", VInt 1);
                                      ("crime_type_weights", VDict [("theft", VInt 1)])])]]> ∅) |};
     graph_builder_py :=
       {| WeightedGraphBuilder.new := alloc ∅;
          WeightedGraphBuilder.load_base_graph := λ _ _, ret tt;
          WeightedGraphBuilder.load_calibrated_weights := λ _ _, ret tt;
          WeightedGraphBuilder.set_crime_analyzer := λ _ _, ret tt;
          WeightedGraphBuilder.create_weighted_graphs := λ _,
            ret (VDict [("fastest", VNone); ("safe", VNone); ("bike", VNone); ("safe_bike", VNone)]);
          WeightedGraphBuilder.validate_graphs := λ _,
            ret [("fastest", VDict [("valid", VBool true)]);
                 ("safe", VDict [("valid", VBool false)])] |};
     route_calculator_py := sample_route_calculator;
     path_exists := λ _, files_present;
     backend_dir := "/srv/pedal/backend";
     data_dir := "/srv/pedal";
     sys_version := "3.11";
     startup_start := Fin 10;
     startup_end := Fin 12 |}.

(** The world when the module has been loaded, and after startup. *)
Definition initial_world : World := {| app := app_state; heap := ∅; calls := [] |}.

Definition started_world : World := (initialize_system (sample_imports true) initial_world).2.

Definition degraded_world : World := (initialize_system (sample_imports false) initial_world).2.

(** The sample deployment with a route calculator that hands out its own
    statistics dictionary instead of a snapshot. *)
Definition aliasing_imports : Imports :=
  let imports := sample_imports true in
  {| crime_analyzer_py := crime_analyzer_py imports;
     osm_analyzer_py := osm_analyzer_py imports;
     weight_calibrator_py := weight_calibrator_py imports;
     graph_builder_py := graph_builder_py imports;
     route_calculator_py :=
       {| RouteCalculator.new := RouteCalculator.new sample_route_calculator;
          RouteCalculator.initialize := RouteCalculator.initialize sample_route_calculator;
          RouteCalculator.calculate_route := RouteCalculator.calculate_route sample_route_calculator;
          RouteCalculator.compare_routes := RouteCalculator.compare_routes sample_route_calculator;
          RouteCalculator.get_route_statistics := alias_of |};
     path_exists := path_exists imports;
     backend_dir := backend_dir imports;
     data_dir := data_dir imports;
     sys_version := sys_version imports;
     startup_start := startup_start imports;
     startup_end := startup_end imports |}.

(** A document for the examples: three incidents, of which the first is
    in the window, the second has a latitude that is not a number and the
    third has no coordinates. *)
Definition sample_incident (id : Z) (coords : list pyval) : pyval :=
  VDict [("id", VInt id);
         ("location", VDict [("type", VStr "Point"); ("coordinates", VList coords)]);
         ("parentIncidentType", VStr "Theft")].

Definition sample_document : pyval :=
  VDict [("result",
          VDict [("list",
                  VDict [("incidents",
                          VList [sample_incident 1 [VFloat (Fin (-869 # 10)); VFloat (Fin (404 # 10))];
                                 sample_incident 2 [VFloat (Fin (-869 # 10)); VStr "north"];
                                 VDict [("id", VInt 3); ("location", VDict [])]])])])].

Definition sample_read_json (path : string) : exn + pyval :=
  if String.eqb path "WLCrime.json" then inr sample_document
  else if String.eqb path "broken.json" then inl (JSONDecodeError "Expecting value")
  else inl (FileNotFoundError path).

Definition sample_parse_number (s : string) : option pyfloat :=
  if String.eqb s "40.4" then Some (Fin (404 # 10)) else None.

(** A document whose only incident lies outside the window. *)
Definition remote_document : pyval :=
  VDict [("result",
          VDict [("list",
                  VDict [("incidents",
                          VList [sample_incident 7 [VFloat (Fin 0); VFloat (Fin 0)]])])])].

(** Graphs for the examples.  In [detour_graph] the heuristic
    [detour_estimate] never overestimates the remaining cost to node 3
    but breaks the triangle inequality on the edge from 1 to 2.  In
    [tie_graph] the heuristic [tie_estimate] is exact on the cheapest
    path to node 0 and is zero at node 1, which is not the goal.  In
    [town_graph] the heuristic [town_estimate] obeys the triangle
    inequality and is zero at the goal 2 only. *)
Definition detour_graph : WeightedGraphVariant :=
  [(0, 1, 1%Z); (1, 2, 1%Z); (0, 2, 3%Z); (2, 3, 3%Z)].

Definition detour_estimate (n : node) : Z :=
  match n with
  | 1 => 4
  | _ => 0
  end.

Definition tie_graph : WeightedGraphVariant :=
  [(3, 2, 1%Z); (2, 0, 1%Z); (3, 1, 2%Z)].

Definition tie_estimate (n : node) : Z :=
  match n with
  | 3 => 2
  | 2 => 1
  | _ => 0
  end.

Definition town_graph : WeightedGraphVariant :=
  [(0, 1, 2%Z); (1, 2, 2%Z); (0, 3, 1%Z); (3, 2, 5%Z)].

Definition town_estimate (n : node) : Z :=
  match n with
  | 0 => 4
  | 1 => 2
  | 2 => 0
  | _ => 4
  end.

(** ** The rest of main.py: /modes, the lifespan, a sequence of requests *)

Record RouteModesResponseModel : Type := mkRouteModesResponseModel {
  modes : list (string * list (string * string))
}.

(** GET /modes: the dictionary literal, in the order it is written. *)
Definition get_available_modes : M World RouteModesResponseModel :=
  let modes :=
    [("fastest",
      [("name", "Fastest Route");
       ("description", "Shortest distance route without penalties")]);
     ("safe",
      [("name", "Safe Route");
       ("description", "Avoids high-crime areas using crime data analysis")]);
     ("bike",
      [("name", "Bike Route");
       ("description", "Prioritizes bike lanes and cycling infrastructure")]);
     ("safe_bike",
      [("name", "Safe + Bike Route");
       ("description", "Balances safety and bike infrastructure preferences")])] in
  ret {| modes := modes |}.

(** [lifespan]: [initialize_system] runs before the application serves
    ([yield]); the shutdown part only logs. *)
Definition lifespan {A} (imports : Imports) (serving : M World A) : M World A :=
  do! initialize_system imports in
  serving.

(** A request to one of the endpoints, and what the endpoint answers. *)
Inductive Request : Type :=
| GetHealth
| GetModes
| GetStats
| PostRoute (request : RouteRequestModel.t)
| PostRouteCompare (request : RouteCompareRequestModel.t).

Inductive Response : Type :=
| HealthResponse (r : HealthResponseModel)
| ModesResponse (r : RouteModesResponseModel)
| StatsResponse (r : gmap string pyval)
| RouteResponse (r : RouteResponseModel)
| CompareResponse (r : gmap string RouteResponseModel).

(** The route table of the application: each request goes to its handler;
    the state a handler leaves is the state the next request finds, also
    when the handler raises. *)
Definition serve (imports : Imports) (rq : Request) : M World Response :=
  match rq with
  | GetHealth => let! r := health_check imports in ret (HealthResponse r)
  | GetModes => let! r := get_available_modes in ret (ModesResponse r)
  | GetStats => let! r := get_system_stats imports in ret (StatsResponse r)
  | PostRoute request => let! r := calculate_route imports request in ret (RouteResponse r)
  | PostRouteCompare request =>
      let! r := compare_routes imports request in ret (CompareResponse r)
  end.

(** The world after a sequence of requests. *)
Definition serve_all (imports : Imports) (rqs : list Request) (w : World) : World :=
  foldl (λ w rq, (serve imports rq w).2) w rqs.

(** A computation that leaves [app_state] as it is. *)
Definition keeps_app {A} (m : M World A) : Prop :=
  ∀ w, app (m w).2 = app w.

(** The started deployment with a calibration whose "crime_analysis" entry
    is [None]. *)
Definition malformed_world : World :=
  {| app := app started_world;
     heap := <[4%positive := <["calibration_stats" := VDict [("crime_analysis", VNone)]]> ∅]>
               (heap started_world);
     calls := [] |}.

(** ** heatmap.py: [load_multiple_json_files] *)

(** The argument of [load_multiple_json_files]: a string - a path or a
    pattern - or a list of paths. *)
Inductive FileArgument : Type :=
| PathOrPattern (s : string)
| PathList (l : list string).

(** Whether [hash(v)] succeeds: lists and dicts are unhashable. *)
Definition hashable (v : pyval) : bool :=
  match v with
  | VList _ | VDict _ => false
  | _ => true
  end.

Definition unhashable_error (v : pyval) : exn :=
  match v with
  | VList _ => TypeError "unhashable type: 'list'"
  | _ => TypeError "unhashable type: 'dict'"
  end.

Section LoadMultiple.

Variable read_json : string → exn + pyval.
Variable parse_number : string → option pyfloat.

(** [glob.glob]: the paths that match a pattern. *)
Variable glob : string → list string.

(** The test by which pandas takes two values of a column for the same
    value. *)
Variable same_value : pyval → pyval → bool.

(** The first lines: which files are processed. *)
Definition json_files_of (file_pattern_or_list : FileArgument) : list string :=
  match file_pattern_or_list with
  | PathOrPattern s => if is_substring "*" s then glob s else [s]
  | PathList l => l
  end.

(** The loop over the files: the table of every file that loads is
    appended to [all_dataframes]. *)
Fixpoint load_each (json_files : list string) (all_dataframes : list (list Row))
    : exn + list (list Row) :=
  match json_files with
  | [] => inr all_dataframes
  | json_file :: rest =>
      let? result := load_json_crime_data read_json parse_number json_file in
      load_each rest
        (match result with
         | Some (df, _, _, _, _) => all_dataframes ++ [df]
         | None => all_dataframes
         end)
  end.

(** [drop_duplicates(subset=['id'])] keeps the first row of every id: a
    row is dropped when its id is the same value as the id of a row that
    was kept before it. *)
Fixpoint keep_first (seen : list pyval) (df : list Row) : list Row :=
  match df with
  | [] => []
  | r :: rest =>
      if existsb (λ v, same_value v (id r)) seen
      then keep_first seen rest
      else r :: keep_first (id r :: seen) rest
  end.

(** The ids are hashed: an id that is a list or a dict makes the call
    raise. *)
Definition drop_duplicates (df : list Row) : exn + list Row :=
  match List.find (λ r, negb (hashable (id r))) df with
  | Some r => inl (unhashable_error (id r))
  | None => inr (keep_first [] df)
  end.

(** [load_multiple_json_files].  Every table has the column 'id', so the
    test ['id' in combined_df.columns] holds. *)
Definition load_multiple_json_files (file_pattern_or_list : FileArgument)
    : exn + option LoadResult :=
  let json_files := json_files_of file_pattern_or_list in
  let? all_dataframes := load_each json_files [] in
  match all_dataframes with
  | [] => inr None
  | _ :: _ =>
      let combined_df := concat all_dataframes in
      let? combined_df := drop_duplicates combined_df in
      inr (Some (combined_df, "latitude", "longitude", "parent_incident_type", "date"))
  end.

(** The tables of the files that load, in the order of the files. *)
Definition loaded_tables (json_files : list string) : list (list Row) :=
  omap (λ json_file,
          match load_json_crime_data read_json parse_number json_file with
          | inr (Some (df, _, _, _, _)) => Some df
          | _ => None
          end) json_files.

End LoadMultiple.

(** Equality of two hashable values, for the examples. *)
Definition same_scalar (a b : pyval) : bool :=
  match a, b with
  | VNone, VNone => true
  | VBool x, VBool y => Bool.eqb x y
  | VInt x, VInt y => (x =? y)%Z
  | VStr x, VStr y => String.eqb x y
  | VFloat (Fin x), VFloat (Fin y) => Qeq_bool x y
  | VFloat NaN, VFloat NaN => true
  | VFloat PInf, VFloat PInf => true
  | VFloat NInf, VFloat NInf => true
  | _, _ => false
  end.

(** Two files for the examples: the second repeats incident 1 of the
    first and adds incident 8. *)
Definition second_document : pyval :=
  VDict [("result",
          VDict [("list",
                  VDict [("incidents",
                          VList [sample_incident 1 [VFloat (Fin (-869 # 10)); VFloat (Fin (404 # 10))];
                                 sample_incident 8 [VFloat (Fin (-87)); VFloat (Fin 40)]])])])].

Definition two_files_read_json (path : string) : exn + pyval :=
  if String.eqb path "a.json" then inr sample_document
  else if String.eqb path "b.json" then inr second_document
  else inl (FileNotFoundError path).

(** A document with one well-formed incident and one whose coordinates
    hold a single number. *)
Definition short_document : pyval :=
  VDict [("result",
          VDict [("list",
                  VDict [("incidents",
                          VList [sample_incident 1 [VFloat (Fin (-869 # 10)); VFloat (Fin (404 # 10))];
                                 sample_incident 2 [VFloat (Fin (-869 # 10))]])])])].

(** * Properties *)

(** ** Floats and request validation *)

Lemma fbetween_in_range lo hi v :
  fbetween (Fin lo) v (Fin hi) = true ↔ in_range lo hi v.
Proof.
  unfold fbetween, in_range. split.
  - intros H. apply andb_prop in H as [H1 H2].
    destruct v as [q| | |]; simpl in *; try discriminate.
    exists q. by rewrite <- !Qle_bool_iff.
  - intros (q & -> & H1 & H2). simpl.
    apply Qle_bool_iff in H1, H2. by rewrite H1, H2.
Qed.

Lemma validate_latitude_ok v :
  is_ok (RouteRequestModel.validate_latitude v) ↔ in_range (-90) 90 v.
Proof.
  unfold RouteRequestModel.validate_latitude.
  rewrite <- fbetween_in_range.
  destruct (fbetween _ _ _); simpl; intuition congruence.
Qed.

Lemma validate_longitude_ok v :
  is_ok (RouteRequestModel.validate_longitude v) ↔ in_range (-180) 180 v.
Proof.
  unfold RouteRequestModel.validate_longitude.
  rewrite <- fbetween_in_range.
  destruct (fbetween _ _ _); simpl; intuition congruence.
Qed.

Lemma validate_route_type_ok v :
  is_ok (RouteRequestModel.validate_route_type v) ↔ v ∈ valid_types.
Proof.
  unfold RouteRequestModel.validate_route_type.
  case_bool_decide; simpl; intuition.
Qed.

Lemma validate_algorithm_ok v :
  is_ok (RouteRequestModel.validate_algorithm v) ↔ v ∈ valid_algorithms.
Proof.
  unfold RouteRequestModel.validate_algorithm.
  case_bool_decide; simpl; intuition.
Qed.

(** A single-route request is accepted exactly when its six fields are
    valid, and is otherwise rejected with a validation error that names
    at least one field. *)
Lemma RouteRequestModel_new_ok start_lat start_lon end_lat end_lon route_type algorithm :
  is_ok (RouteRequestModel.new start_lat start_lon end_lat end_lon route_type algorithm) ↔
  in_range (-90) 90 start_lat ∧ in_range (-180) 180 start_lon ∧
  in_range (-90) 90 end_lat ∧ in_range (-180) 180 end_lon ∧
  route_type ∈ valid_types ∧ default "dijkstra" algorithm ∈ valid_algorithms.
Proof.
  rewrite <- !validate_latitude_ok, <- !validate_longitude_ok,
    <- validate_route_type_ok.
  assert (Halg : default "dijkstra" algorithm ∈ valid_algorithms ↔
                 is_ok (match algorithm with
                        | None => inr "dijkstra"
                        | Some a => RouteRequestModel.validate_algorithm a
                        end)).
  { destruct algorithm as [a|]; simpl.
    - by rewrite validate_algorithm_ok.
    - split; [done | intros _; unfold valid_algorithms; set_solver]. }
  rewrite Halg. unfold RouteRequestModel.new.
  destruct (RouteRequestModel.validate_latitude start_lat),
    (RouteRequestModel.validate_longitude start_lon),
    (RouteRequestModel.validate_latitude end_lat),
    (RouteRequestModel.validate_longitude end_lon),
    (RouteRequestModel.validate_route_type route_type),
    (match algorithm with
     | None => inr "dijkstra"
     | Some a => RouteRequestModel.validate_algorithm a
     end); simpl; tauto.
Qed.

Lemma RouteRequestModel_new_rejects start_lat start_lon end_lat end_lon route_type algorithm :
  ¬ is_ok (RouteRequestModel.new start_lat start_lon end_lat end_lon route_type algorithm) →
  ∃ field msg errors,
    RouteRequestModel.new start_lat start_lon end_lat end_lon route_type algorithm
    = inl (ValidationError ((field, msg) :: errors)).
Proof.
  unfold RouteRequestModel.new.
  destruct (RouteRequestModel.validate_latitude start_lat),
    (RouteRequestModel.validate_longitude start_lon),
    (RouteRequestModel.validate_latitude end_lat),
    (RouteRequestModel.validate_longitude end_lon),
    (RouteRequestModel.validate_route_type route_type),
    (match algorithm with
     | None => inr "dijkstra"
     | Some a => RouteRequestModel.validate_algorithm a
     end); simpl; intros H; try (by destruct H); eauto.
Qed.

(** A comparison request is accepted exactly when its four coordinates
    are valid, whatever its route types and algorithm are. *)
Lemma RouteCompareRequestModel_new_ok start_lat start_lon end_lat end_lon route_types algorithm :
  is_ok (RouteCompareRequestModel.new start_lat start_lon end_lat end_lon route_types algorithm) ↔
  in_range (-90) 90 start_lat ∧ in_range (-180) 180 start_lon ∧
  in_range (-90) 90 end_lat ∧ in_range (-180) 180 end_lon.
Proof.
  rewrite <- !validate_latitude_ok, <- !validate_longitude_ok.
  unfold RouteCompareRequestModel.new.
  change RouteCompareRequestModel.validate_latitude with RouteRequestModel.validate_latitude.
  change RouteCompareRequestModel.validate_longitude with RouteRequestModel.validate_longitude.
  destruct (RouteRequestModel.validate_latitude start_lat),
    (RouteRequestModel.validate_longitude start_lon),
    (RouteRequestModel.validate_latitude end_lat),
    (RouteRequestModel.validate_longitude end_lon); simpl; tauto.
Qed.

(** C2, at the failing input: the comparison request with valid
    coordinates, the route type "teleport" and the algorithm "bogus" is
    constructed without a validation error, although neither value is in
    its set; the single-route model rejects both values. *)
Theorem compare_request_accepts_unknown_algorithm :
  RouteCompareRequestModel.new (Fin 0) (Fin 0) (Fin 0) (Fin 0)
    (Some ["teleport"]) (Some "bogus")
  = inr (RouteCompareRequestModel.mk (Fin 0) (Fin 0) (Fin 0) (Fin 0)
           (Some ["teleport"]) "bogus")
  ∧ ("bogus" ∉ valid_algorithms)
  ∧ ("teleport" ∉ valid_types)
  ∧ ¬ is_ok (RouteRequestModel.new (Fin 0) (Fin 0) (Fin 0) (Fin 0) "fastest" (Some "bogus"))
  ∧ ¬ is_ok (RouteRequestModel.new (Fin 0) (Fin 0) (Fin 0) (Fin 0) "teleport" None).
Proof.
  split; [reflexivity |].
  split; [apply (bool_decide_unpack _); by vm_compute |].
  split; [apply (bool_decide_unpack _); by vm_compute |].
  split; vm_compute; tauto.
Qed.

(** ** The handlers of main.py *)

Lemma response_fmap (results : gmap string RouteResult) :
  map_fold (λ route_type result response, <[route_type := to_response result]> response)
           (∅ : gmap string RouteResponseModel) results
  = to_response <$> results.
Proof.
  apply (map_fold_weak_ind (λ r m, r = to_response <$> m)).
  - by rewrite fmap_empty.
  - intros i x m r _ ->. by rewrite fmap_insert.
Qed.

(** C4: [health_check] returns a response in every state and for every
    behaviour of the route calculator; its status is "healthy" exactly
    when [initialized] is set and [startup_errors] is empty, and
    "unhealthy" otherwise; its [errors] are the accumulated startup
    errors. *)
Theorem health_check_total (imports : Imports) (w : World) :
  ∃ response w',
    health_check imports w = (inr response, w') ∧
    app w' = app w ∧
    (status response = "healthy" ↔
       initialized (app w) = true ∧ startup_errors (app w) = []) ∧
    (status response = "unhealthy" ↔
       ¬ (initialized (app w) = true ∧ startup_errors (app w) = [])) ∧
    health_initialized response = initialized (app w) ∧
    errors response = startup_errors (app w).
Proof.
  destruct w as [st h cs].
  assert (Hstatus : ∀ b (errs : list string),
    let s := if b && negb (bool_decide (errs ≠ [])) then "healthy" else "unhealthy" in
    (s = "healthy" ↔ b = true ∧ errs = []) ∧
    (s = "unhealthy" ↔ ¬ (b = true ∧ errs = []))).
  { intros [] errs; simpl.
    - case_bool_decide as Hne; simpl;
        intuition (discriminate || congruence).
    - intuition (discriminate || congruence). }
  unfold health_check, bind, get_app, get_heap, try_except, invoke, ret. simpl.
  destruct (initialized st) eqn:Hinit; simpl.
  - destruct (route_calculator st) as [rc|] eqn:Hrc; simpl.
    + destruct (RouteCalculator.get_route_statistics _ rc h) as [[e|l] h'] eqn:Hm; simpl;
        eexists _, _; (split; [reflexivity |]); simpl; rewrite Hinit;
        destruct (Hstatus true (startup_errors st)) as [H1 H2]; simpl in H1, H2; auto.
    + eexists _, _; (split; [reflexivity |]); simpl; rewrite Hinit;
        destruct (Hstatus true (startup_errors st)) as [H1 H2]; simpl in H1, H2; auto.
  - eexists _, _; (split; [reflexivity |]); simpl; rewrite Hinit.
    destruct (Hstatus false (startup_errors st)) as [H1 H2]; simpl in H1, H2; auto.
Qed.

(** C5: while [initialized] is false, the handlers of /route,
    /route/compare and /stats raise the HTTP error 503 and leave the
    world as it is: in particular no call on the route calculator is
    recorded. *)
Theorem not_initialized_503 (imports : Imports) (w : World)
    (request : RouteRequestModel.t) (compare_request : RouteCompareRequestModel.t) :
  initialized (app w) = false →
  calculate_route imports request w
    = (inl (HTTPException 503 "System not initialized. Check /health for details."), w) ∧
  compare_routes imports compare_request w
    = (inl (HTTPException 503 "System not initialized. Check /health for details."), w) ∧
  get_system_stats imports w
    = (inl (HTTPException 503 "System not initialized. Check /health for details."), w) ∧
  calls (calculate_route imports request w).2 = calls w ∧
  calls (compare_routes imports compare_request w).2 = calls w ∧
  calls (get_system_stats imports w).2 = calls w.
Proof.
  intros Hinit.
  assert (H1 : calculate_route imports request w = (inl not_initialized, w)).
  { unfold calculate_route, bind, get_app. simpl. by rewrite Hinit. }
  assert (H2 : compare_routes imports compare_request w = (inl not_initialized, w)).
  { unfold compare_routes, bind, get_app. simpl. by rewrite Hinit. }
  assert (H3 : get_system_stats imports w = (inl not_initialized, w)).
  { unfold get_system_stats, bind, get_app. simpl. by rewrite Hinit. }
  rewrite H1, H2, H3. done.
Qed.


Example started_world_initialized :
  initialized (app started_world) = true ∧
  startup_errors (app started_world) = [] ∧
  route_calculator (app started_world) = Some 7%positive.
Proof. vm_compute. done. Qed.

Example degraded_world_errors :
  initialized (app degraded_world) = false ∧
  startup_errors (app degraded_world) =
    ["System initialization failed: Indianapolis crime data not found: /srv/pedal/IndianapolisCrime.csv"].
Proof. vm_compute. done. Qed.

Lemma not_initialized_503_witness :
  initialized (app degraded_world) = false ∧
  calculate_route (sample_imports false)
    (RouteRequestModel.mk (Fin 40) (Fin (-87)) (Fin 40) (Fin (-87)) "fastest" "astar")
    degraded_world
  = (inl (HTTPException 503 "System not initialized. Check /health for details."),
     degraded_world).
Proof.
  split; [by vm_compute |].
  refine (proj1 (not_initialized_503 (sample_imports false) degraded_world
                   (RouteRequestModel.mk (Fin 40) (Fin (-87)) (Fin 40) (Fin (-87))
                      "fastest" "astar")
                   (RouteCompareRequestModel.mk (Fin 40) (Fin (-87)) (Fin 40) (Fin (-87))
                      None "dijkstra") _)).
  by vm_compute.
Defined.


(** ** Startup *)


Lemma keeps_ret {A} (a : A) : keeps_startup_errors (ret a).
Proof. by intros w. Qed.

Lemma keeps_raise {A} (e : exn) : keeps_startup_errors (@raise World A e).
Proof. by intros w. Qed.

Lemma keeps_lift {A} (r : exn + A) : keeps_startup_errors (lift r).
Proof. by intros w. Qed.

Lemma keeps_call {A} (m : method A) : keeps_startup_errors (call m).
Proof. intros w. unfold call. by destruct (m (heap w)). Qed.

Lemma keeps_modify_app (f : AppState → AppState) :
  (∀ st, startup_errors (f st) = startup_errors st) →
  keeps_startup_errors (modify_app f).
Proof. intros Hf w. apply Hf. Qed.

Lemma keeps_bind {A B} (m : M World A) (k : A → M World B) :
  keeps_startup_errors m → (∀ a, keeps_startup_errors (k a)) →
  keeps_startup_errors (bind m k).
Proof.
  intros Hm Hk w. unfold bind. specialize (Hm w).
  destruct (m w) as [[e|a] w1]; simpl in *; [done |].
  by rewrite Hk.
Qed.

Ltac keeps_step :=
  first
    [ apply keeps_ret | apply keeps_raise | apply keeps_lift | apply keeps_call
    | apply keeps_modify_app; by intros []
    | apply keeps_bind; [| intros ?]
    | match goal with
      | |- keeps_startup_errors (if ?b then _ else _) => destruct b
      | |- keeps_startup_errors (match ?o with Some _ => _ | None => _ end) => destruct o
      end ].

Lemma initialize_components_keeps (imports : Imports) :
  keeps_startup_errors (initialize_components imports).
Proof. unfold initialize_components. repeat keeps_step. Qed.

(** A missing data file makes the startup block raise. *)
Lemma initialize_components_missing_file (imports : Imports) (w : World) :
  path_exists imports (data_dir imports ++ "/IndianapolisCrime.csv") = false →
  initialize_components imports w
  = (inl (FileNotFoundError ("Indianapolis crime data not found: " ++
                             data_dir imports ++ "/IndianapolisCrime.csv")), w).
Proof.
  intros H. unfold initialize_components, bind. by rewrite H.
Qed.

(** C3: [initialize_system] returns normally in every world and for
    every behaviour of its collaborators; when its startup block raises
    an exception [e], the message "System initialization failed: " ++
    [str e] is appended to [startup_errors] and [initialized] is false
    in the world it returns. *)
Theorem initialize_system_catches (imports : Imports) (w : World) :
  (∃ w', initialize_system imports w = (inr tt, w')) ∧
  (∀ e w1,
     initialize_components imports w = (inl e, w1) →
     ∃ w', initialize_system imports w = (inr tt, w') ∧
           startup_errors (app w')
           = (startup_errors (app w) ++
                ["System initialization failed: " ++ str e]%string)%list ∧
           initialized (app w') = false).
Proof.
  pose proof (initialize_components_keeps imports w) as Hkeep.
  unfold initialize_system, try_except.
  destruct (initialize_components imports w) as [[e|[]] w1] eqn:Hbody; simpl in Hkeep.
  - split.
    + eexists. reflexivity.
    + intros e' w1' Heq. inversion Heq; subst e' w1'. clear Heq.
      eexists. split; [reflexivity |]. simpl. by rewrite Hkeep.
  - split; [by eexists |]. intros e w1' Heq. discriminate.
Qed.

Lemma initialize_system_catches_witness :
  ∃ w', initialize_system (sample_imports false) initial_world = (inr tt, w') ∧
        startup_errors (app w')
        = ["System initialization failed: Indianapolis crime data not found: /srv/pedal/IndianapolisCrime.csv"] ∧
        initialized (app w') = false.
Proof.
  refine (proj2 (initialize_system_catches (sample_imports false) initial_world)
                (FileNotFoundError
                   "Indianapolis crime data not found: /srv/pedal/IndianapolisCrime.csv")
                initial_world _).
  by vm_compute.
Defined.

(** ** GET /stats: the frame of the handler *)

Lemma writes_only_ret {A} l (a : A) : writes_only l (ret a).
Proof. by intros w. Qed.

Lemma writes_only_raise {A} l (e : exn) : writes_only l (@raise World A e).
Proof. by intros w. Qed.

Lemma writes_only_lift {A} l (r : exn + A) : writes_only l (lift r).
Proof. by intros w. Qed.

Lemma writes_only_get_app l : writes_only l get_app.
Proof. by intros w. Qed.

Lemma writes_only_get_heap l : writes_only l get_heap.
Proof. by intros w. Qed.

Lemma writes_only_dict_update l items : writes_only l (dict_update l items).
Proof.
  intros w. unfold dict_update, modify_heap. simpl.
  repeat split. intros l' Hne. by rewrite lookup_insert_ne.
Qed.

Lemma writes_only_bind {A B} l (m : M World A) (k : A → M World B) :
  writes_only l m → (∀ a, writes_only l (k a)) → writes_only l (bind m k).
Proof.
  intros Hm Hk w. unfold bind. destruct (Hm w) as (Ha & Hc & Hh).
  destruct (m w) as [[e|a] w1]; simpl in *; [done |].
  destruct (Hk a w1) as (Ha' & Hc' & Hh').
  rewrite Ha', Hc'. repeat split; try done.
  intros l' Hne. by rewrite Hh', Hh.
Qed.

Lemma writes_only_getattr l obj name : writes_only l (getattr obj name).
Proof.
  unfold getattr. apply writes_only_bind; [apply writes_only_get_heap |].
  intros h. destruct (default ∅ (h !! obj) !! name);
    [apply writes_only_ret | apply writes_only_raise].
Qed.

Ltac writes_only_step :=
  first
    [ apply writes_only_ret | apply writes_only_raise | apply writes_only_lift
    | apply writes_only_get_app | apply writes_only_get_heap
    | apply writes_only_dict_update | apply writes_only_getattr
    | apply writes_only_bind; [| intros ?]
    | match goal with
      | |- writes_only _ (match ?o with Some _ => _ | None => _ end) => destruct o
      end ].

Lemma add_system_information_writes_only stats :
  writes_only stats (add_system_information stats).
Proof. unfold add_system_information. repeat writes_only_step. Qed.

Lemma snapshot_of_read_only summary : read_only_snapshot (snapshot_of summary).
Proof.
  intros h. right. exists (fresh (dom h)), (default ∅ (h !! summary)).
  split; [| done]. apply not_elem_of_dom, is_fresh.
Qed.

(** One call of the handler: [app_state] is unchanged, every object of
    the store is unchanged, and at most the call [get_route_statistics]
    is made on the route calculator. *)
Lemma get_system_stats_frame (imports : Imports) (w : World) :
  (∀ rc, route_calculator (app w) = Some rc →
         read_only_snapshot
           (RouteCalculator.get_route_statistics (route_calculator_py imports) rc)) →
  app (get_system_stats imports w).2 = app w ∧
  (∀ l o, heap w !! l = Some o → heap (get_system_stats imports w).2 !! l = Some o) ∧
  (calls (get_system_stats imports w).2 = calls w ∨
   calls (get_system_stats imports w).2 = (calls w ++ [GetRouteStatistics])%list).
Proof.
  intros Hro. remember (get_system_stats imports w) as r eqn:Hr.
  unfold get_system_stats, bind, get_app, try_except, lift, invoke, raise in Hr.
  simpl in Hr.
  destruct (initialized (app w)); simpl in Hr; [| subst r; by auto].
  destruct (route_calculator (app w)) as [rc|] eqn:Hrc; simpl in Hr;
    [| subst r; by auto].
  destruct (Hro rc eq_refl (heap w)) as [(e & Hm) | (l & stats & Hfresh & Hm)];
    rewrite Hm in Hr; simpl in Hr; [subst r; by auto |].
  set (w1 := {| app := app w; heap := <[l := stats]> (heap w);
                calls := (calls w ++ [GetRouteStatistics])%list |}) in Hr.
  destruct (add_system_information_writes_only l w1) as (Ha & Hc & Hh).
  destruct (add_system_information l w1) as [[e|d] w2]; subst r; simpl in *.
  all: rewrite Ha, Hc; repeat split; auto.
  all: intros l' o Hl'; rewrite Hh by congruence;
    rewrite lookup_insert_ne by congruence; done.
Qed.

(** C7: the /stats handler is read-only, given that
    [get_route_statistics] is: after one call, and after a second call,
    [app_state] (the [initialized] flag, the startup errors, the
    references to the route calculator, the graph builder, the analyzers
    and the calibrated weights) is what it was, every object that was in
    the store has the content it had, and the only calls made on the
    route calculator are calls of [get_route_statistics]. *)
Theorem get_system_stats_read_only (imports : Imports) (w : World) :
  (∀ rc, route_calculator (app w) = Some rc →
         read_only_snapshot
           (RouteCalculator.get_route_statistics (route_calculator_py imports) rc)) →
  let w1 := (get_system_stats imports w).2 in
  let w2 := (get_system_stats imports w1).2 in
  app w1 = app w ∧ app w2 = app w ∧
  (∀ l o, heap w !! l = Some o → heap w1 !! l = Some o ∧ heap w2 !! l = Some o) ∧
  (∃ n, calls w2 = (calls w ++ replicate n GetRouteStatistics)%list).
Proof.
  intros Hro w1 w2.
  destruct (get_system_stats_frame imports w Hro) as (Ha1 & Hh1 & Hc1).
  fold w1 in Ha1, Hh1, Hc1.
  assert (Hro1 : ∀ rc, route_calculator (app w1) = Some rc →
                       read_only_snapshot
                         (RouteCalculator.get_route_statistics (route_calculator_py imports) rc)).
  { rewrite Ha1. exact Hro. }
  destruct (get_system_stats_frame imports w1 Hro1) as (Ha2 & Hh2 & Hc2).
  fold w2 in Ha2, Hh2, Hc2.
  split; [done |]. split; [congruence |]. split; [by auto |].
  destruct Hc1 as [Hc1|Hc1], Hc2 as [Hc2|Hc2]; rewrite Hc2, Hc1.
  - exists 0. by rewrite app_nil_r.
  - by exists 1.
  - by exists 1.
  - exists 2. by rewrite <- app_assoc.
Qed.

Lemma get_system_stats_read_only_witness :
  app (get_system_stats (sample_imports true) started_world).2 = app started_world.
Proof.
  refine (proj1 (get_system_stats_read_only (sample_imports true) started_world _)).
  intros rc _. apply snapshot_of_read_only.
Defined.

(** The snapshot matters: with a route calculator that returns its own
    statistics dictionary, the handler's [stats.update] is a write to the
    route calculator's object. *)
Example get_system_stats_alias_writes :
  let w := (initialize_system aliasing_imports initial_world).2 in
  heap w !! 7%positive = Some (<["graphs" := VInt 4]> ∅) ∧
  (default ∅ (heap (get_system_stats aliasing_imports w).2 !! 7%positive)) !! "initialized"
  = Some (VBool true).
Proof. vm_compute. done. Qed.

(** ** POST /route/compare: one entry per requested route type *)

Section FoldInsert.

Context {V : Type} (f : string → V).

Lemma foldl_insert_lookup (l : list string) (m : gmap string V) (k : string) :
  foldl (λ results key, <[key := f key]> results) m l !! k
  = if decide (k ∈ l) then Some (f k) else m !! k.
Proof.
  revert m. induction l as [|x l IH]; intros m; simpl.
  - done.
  - rewrite IH. destruct (decide (k ∈ l)) as [Hin|Hnin].
    + rewrite decide_True by (by right). done.
    + destruct (decide (k = x)) as [->|Hne].
      * rewrite decide_True by (by left). by rewrite lookup_insert_eq.
      * rewrite decide_False.
        -- by rewrite lookup_insert_ne.
        -- intros Hk. apply elem_of_cons in Hk as [Hk|Hk]; done.
Qed.

Lemma foldl_insert_dom (l : list string) :
  dom (foldl (λ results key, <[key := f key]> results) (∅ : gmap string V) l)
  = list_to_set l.
Proof.
  apply set_eq. intros k. rewrite elem_of_dom, foldl_insert_lookup, elem_of_list_to_set.
  case_decide; [by split; eauto | rewrite lookup_empty; split; [by intros [? ?] | done]].
Qed.

Lemma foldl_insert_size (l : list string) :
  NoDup l →
  size (foldl (λ results key, <[key := f key]> results) (∅ : gmap string V) l) = length l.
Proof.
  intros Hnd. rewrite <- size_dom, foldl_insert_dom. by apply size_list_to_set.
Qed.

End FoldInsert.

(** An entry is the result of the search for its route type, or a result
    that carries an error message and no route. *)
Lemma compare_entry_cases {node} (search : node → node → string → string → string + RouteResult)
    endpoints route_type algorithm :
  (∃ s e, endpoints = inr (s, e) ∧
          search s e route_type algorithm
          = inr (compare_entry node search endpoints route_type algorithm)) ∨
  (∃ msg, compare_entry node search endpoints route_type algorithm
          = error_result route_type algorithm msg ∧
          ((endpoints = inl msg) ∨
           (∃ s e, endpoints = inr (s, e) ∧ search s e route_type algorithm = inl msg))).
Proof.
  unfold compare_entry. destruct endpoints as [msg|[s e]].
  - right. eauto.
  - destruct (search s e route_type algorithm) as [msg|result] eqn:Hs.
    + right. exists msg. split; [done |]. right. eauto.
    + left. eauto.
Qed.

(** The handler on top of the contract: it returns the mapping of the
    route calculator, converted entry by entry. *)
Lemma compare_routes_entries_dom (imports : Imports) (w : World) (rc : loc)
    (node : Type) (snap : pyfloat → pyfloat → string + node)
    (search : node → node → string → string → string + RouteResult)
    (request : RouteCompareRequestModel.t) :
  initialized (app w) = true →
  route_calculator (app w) = Some rc →
  RouteCalculator.compare_routes (route_calculator_py imports) rc
    = spec_compare_routes node snap search →
  ∃ response w',
    compare_routes imports request w = (inr response, w') ∧
    dom response
    = list_to_set (default ["fastest"; "safe"; "bike"; "safe_bike"]
                           (RouteCompareRequestModel.route_types request)).
Proof.
  intros Hinit Hrc Hspec.
  remember (compare_routes imports request w) as r eqn:Hr.
  unfold compare_routes, bind, get_app, try_except, lift, invoke, ret in Hr.
  simpl in Hr. rewrite Hinit, Hrc in Hr. simpl in Hr.
  rewrite Hspec in Hr. unfold spec_compare_routes, ret in Hr. simpl in Hr.
  rewrite response_fmap in Hr. subst r.
  eexists _, _. split; [reflexivity |].
  rewrite dom_fmap_L, foldl_insert_dom.
  by destruct (RouteCompareRequestModel.route_types request).
Qed.

(** C1, as amended: on an initialized system whose route calculator
    follows the contract of [compare_routes], the handler raises nothing
    and returns a mapping whose keys are the requested route types: one
    entry per distinct type, hence as many entries as requested types
    when no type is requested twice.  The entry of a type is determined
    by that type alone: it is the result of its search, or - when
    snapping or that search fails - a result carrying the error
    message. *)
Theorem compare_routes_entries (imports : Imports) (w : World) (rc : loc)
    (node : Type) (snap : pyfloat → pyfloat → string + node)
    (search : node → node → string → string → string + RouteResult)
    (request : RouteCompareRequestModel.t) :
  initialized (app w) = true →
  route_calculator (app w) = Some rc →
  RouteCalculator.compare_routes (route_calculator_py imports) rc
    = spec_compare_routes node snap search →
  let route_types :=
    default ["fastest"; "safe"; "bike"; "safe_bike"]
            (RouteCompareRequestModel.route_types request) in
  let endpoints :=
    snap_endpoints node snap
      (RouteCompareRequestModel.start_lat request)
      (RouteCompareRequestModel.start_lon request)
      (RouteCompareRequestModel.end_lat request)
      (RouteCompareRequestModel.end_lon request) in
  ∃ response w',
    compare_routes imports request w = (inr response, w') ∧
    dom response = list_to_set route_types ∧
    (NoDup route_types → size response = length route_types) ∧
    (∀ route_type, route_type ∈ route_types →
       ∃ result,
         response !! route_type = Some (to_response result) ∧
         result = compare_entry node search endpoints route_type
                    (RouteCompareRequestModel.algorithm request) ∧
         ((∃ s e, endpoints = inr (s, e) ∧
                  search s e route_type (RouteCompareRequestModel.algorithm request)
                  = inr result) ∨
          (∃ msg, result = error_result route_type
                             (RouteCompareRequestModel.algorithm request) msg))).
Proof.
  intros Hinit Hrc Hspec route_types endpoints.
  remember (compare_routes imports request w) as r eqn:Hr.
  unfold compare_routes, bind, get_app, try_except, lift, invoke, ret in Hr.
  simpl in Hr. rewrite Hinit, Hrc in Hr. simpl in Hr.
  rewrite Hspec in Hr. unfold spec_compare_routes, ret in Hr. simpl in Hr.
  rewrite response_fmap in Hr.
  assert (Hrt : match RouteCompareRequestModel.route_types request with
                | Some route_types => route_types
                | None => ["fastest"; "safe"; "bike"; "safe_bike"]
                end = route_types).
  { unfold route_types. by destruct (RouteCompareRequestModel.route_types request). }
  rewrite Hrt in Hr. fold endpoints in Hr. subst r.
  eexists _, _. split; [reflexivity |].
  split; [by rewrite dom_fmap_L, foldl_insert_dom |].
  split.
  - intros Hnd. rewrite map_size_fmap. by apply foldl_insert_size.
  - intros route_type Hin. eexists. split; [| split; [reflexivity |]].
    + rewrite lookup_fmap, foldl_insert_lookup. by rewrite decide_True.
    + destruct (compare_entry_cases search endpoints route_type
                  (RouteCompareRequestModel.algorithm request))
        as [(s & e & He & Hs) | (msg & Hm & _)]; [left | right]; eauto.
Qed.

Lemma compare_routes_entries_witness :
  ∃ response w',
    compare_routes (sample_imports true)
      (RouteCompareRequestModel.mk (Fin 40) (Fin (-87)) (Fin 40) (Fin (-87))
         (Some ["fastest"; "teleport"]) "astar")
      started_world = (inr response, w') ∧
    size response = 2 ∧
    resp_error_message <$> response !! "fastest" = Some None ∧
    resp_error_message <$> response !! "teleport"
    = Some (Some "no graph for route type teleport").
Proof.
  assert (Hinit : initialized (app started_world) = true) by (vm_compute; reflexivity).
  assert (Hrc : route_calculator (app started_world) = Some 7%positive) by (vm_compute; reflexivity).
  destruct (compare_routes_entries (sample_imports true) started_world 7%positive
              Z sample_snap sample_search
              (RouteCompareRequestModel.mk (Fin 40) (Fin (-87)) (Fin 40) (Fin (-87))
                 (Some ["fastest"; "teleport"]) "astar")
              Hinit Hrc eq_refl)
    as (response & w' & Hrun & _ & Hsize & Hentries).
  exists response, w'. split; [exact Hrun |]. split; [| split].
  - apply Hsize. apply (bool_decide_unpack _). vm_compute. exact I.
  - destruct (Hentries "fastest") as (result & Hl & Hres & _).
    + apply (bool_decide_unpack _). vm_compute. exact I.
    + rewrite Hl, Hres. vm_compute. reflexivity.
  - destruct (Hentries "teleport") as (result & Hl & Hres & _).
    + apply (bool_decide_unpack _). vm_compute. exact I.
    + rewrite Hl, Hres. vm_compute. reflexivity.
Defined.

(** C1, as stated, fails at two inputs: a request that names the route
    type "fastest" twice gets a mapping with one entry, not two; and on a
    system that is not initialized the handler raises instead of
    returning a mapping. *)
Lemma compare_routes_counterexample :
  (∃ response w',
     compare_routes (sample_imports true)
       (RouteCompareRequestModel.mk (Fin 40) (Fin (-87)) (Fin 40) (Fin (-87))
          (Some ["fastest"; "fastest"]) "dijkstra")
       started_world = (inr response, w') ∧
     size response = 1 ∧
     size response ≠ length ["fastest"; "fastest"]) ∧
  (compare_routes (sample_imports false)
     (RouteCompareRequestModel.mk (Fin 40) (Fin (-87)) (Fin 40) (Fin (-87))
        (Some ["fastest"]) "dijkstra")
     degraded_world).1
  = inl (HTTPException 503 "System not initialized. Check /health for details.").
Proof.
  split; [| vm_compute; reflexivity].
  assert (Hinit : initialized (app started_world) = true) by (vm_compute; reflexivity).
  assert (Hrc : route_calculator (app started_world) = Some 7%positive) by (vm_compute; reflexivity).
  destruct (compare_routes_entries_dom (sample_imports true) started_world 7%positive
              Z sample_snap sample_search
              (RouteCompareRequestModel.mk (Fin 40) (Fin (-87)) (Fin 40) (Fin (-87))
                 (Some ["fastest"; "fastest"]) "dijkstra")
              Hinit Hrc eq_refl)
    as (response & w' & Hrun & Hdom).
  exists response, w'. split; [exact Hrun |].
  assert (Hsize : size response = 1).
  { rewrite <- size_dom, Hdom. vm_compute. reflexivity. }
  split; [exact Hsize |]. rewrite Hsize. discriminate.
Qed.

(** ** heatmap.py: what [load_json_crime_data] returns *)

Section LoadJsonProperties.

Variable read_json : string → exn + pyval.
Variable parse_number : string → option pyfloat.

Lemma to_numeric_float v : ∃ f, to_numeric parse_number v = VFloat f.
Proof. destruct v; simpl; eauto. Qed.

(** A cleaned row survives [dropna] and the range filter exactly when its
    coordinates are numbers of the window. *)
Lemma kept_iff_in_window (r : Row) :
  (∃ f g, latitude r = VFloat f ∧ longitude r = VFloat g) →
  (negb (is_nan (latitude r)) && negb (is_nan (longitude r)) = true ∧
   in_window r = true) ↔ coordinates_in_window r.
Proof.
  intros (f & g & Hf & Hg). unfold in_window, coordinates_in_window.
  rewrite Hf, Hg. unfold col_ge, col_le. split.
  - intros [_ H].
    apply andb_prop in H as [H H4]. apply andb_prop in H as [H H3].
    apply andb_prop in H as [H1 H2].
    destruct (proj1 (fbetween_in_range 20 55 f)) as (lat & -> & ? & ?);
      [unfold fbetween; by rewrite H1, H2 |].
    destruct (proj1 (fbetween_in_range (-140) (-60) g)) as (lon & -> & ? & ?);
      [unfold fbetween; by rewrite H3, H4 |].
    exists lat, lon. repeat split; done.
  - intros (lat & lon & Hlat & Hlon & H1 & H2 & H3 & H4).
    inversion Hlat; subst f. inversion Hlon; subst g. simpl.
    apply Qle_bool_iff in H1, H2, H3, H4. by rewrite H1, H2, H3, H4.
Qed.

(** The records that the loop appends are those of the incidents that
    have a location with coordinates, after the records it started with. *)
Lemma collect_records_spec (items : list pyval) (acc records : list Row) :
  collect_records items acc = inr records →
  ∀ r, r ∈ records ↔
       r ∈ acc ∨ ∃ incident, incident ∈ items ∧ incident_record incident = inr (Some r).
Proof.
  revert acc. induction items as [|incident items IH]; intros acc Hc r; simpl in Hc.
  - inversion Hc; subst. split; [by left |].
    intros [H | (i & Hi & _)]; [done | by apply elem_of_nil in Hi].
  - unfold ebind in Hc.
    destruct (incident_record incident) as [e|[record|]] eqn:Hrec; [discriminate | |].
    + rewrite (IH _ Hc r), elem_of_app, list_elem_of_singleton. split.
      * intros [[H | ->] | (i & Hi & Hr)]; [by left | |].
        -- right. exists incident. split; [by left | done].
        -- right. exists i. split; [by right | done].
      * intros [H | (i & Hi & Hr)]; [by left; left |].
        apply elem_of_cons in Hi as [-> | Hi].
        -- left. right. congruence.
        -- right. eauto.
    + rewrite (IH _ Hc r). split.
      * intros [H | (i & Hi & Hr)]; [by left |].
        right. exists i. split; [by right | done].
      * intros [H | (i & Hi & Hr)]; [by left |].
        apply elem_of_cons in Hi as [-> | Hi]; [congruence |].
        right. eauto.
Qed.

(** What [process] returns when it returns a table. *)
Lemma process_some (data : pyval) (result : LoadResult) :
  process parse_number data = inr (Some result) →
  ∃ items records,
    incidents_of data items ∧
    collect_records items [] = inr records ∧
    result = (filter (λ r, in_window r = true)
                (dropna (numeric_coordinates parse_number <$> records)),
              "latitude", "longitude", "parent_incident_type", "date").
Proof.
  unfold process, ebind. intros H.
  destruct (py_contains "result" data) as [|[]]; try discriminate.
  destruct (py_getitem data "result") as [|res] eqn:H1; try discriminate.
  destruct (py_contains "list" res) as [|[]]; try discriminate.
  destruct (py_getitem res "list") as [|lst] eqn:H2; try discriminate.
  destruct (py_contains "incidents" lst) as [|[]]; try discriminate.
  destruct (py_getitem lst "incidents") as [|incidents] eqn:H3; try discriminate.
  destruct (py_len incidents); try discriminate.
  destruct (py_iter incidents) as [|items] eqn:Hit; try discriminate.
  destruct (collect_records items []) as [|records] eqn:Hc; try discriminate.
  case_bool_decide; try discriminate.
  inversion H; subst. exists items, records.
  split; [by exists res, lst, incidents | by split].
Qed.

End LoadJsonProperties.

Lemma load_some_inv read_json parse_number path (result : LoadResult) :
  load_json_crime_data read_json parse_number path = inr (Some result) →
  ∃ data, read_json path = inr data ∧ process parse_number data = inr (Some result).
Proof.
  unfold load_json_crime_data, load_body, ebind.
  destruct (read_json path) as [e|data]; [by destruct e |].
  destruct (process parse_number data) as [e|r] eqn:Hp; [by destruct e |].
  intros [= ->]. eauto.
Qed.

Lemma load_of_body read_json parse_number path :
  load_json_crime_data read_json parse_number path
  = inr (match load_body read_json parse_number path with
         | inr r => r
         | inl _ => None
         end).
Proof.
  unfold load_json_crime_data.
  by destruct (load_body read_json parse_number path) as [[]|].
Qed.

(** C9: every row of the table that [load_json_crime_data] returns has
    numeric coordinates with 20 <= latitude <= 55 and
    -140 <= longitude <= -60 (so neither is NaN); the rows are exactly
    the cleaned records of the incidents of the document that have a
    location with coordinates and whose coordinates, read as numbers, lie
    in that window: an incident without coordinates, with a coordinate
    that is not a number, or outside the window contributes no row. *)
Theorem load_json_rows_in_window
    (read_json : string → exn + pyval) (parse_number : string → option pyfloat)
    (path : string) (df : list Row) (lat_col lon_col crime_col date_col : string) :
  load_json_crime_data read_json parse_number path
    = inr (Some (df, lat_col, lon_col, crime_col, date_col)) →
  (∀ row, row ∈ df → coordinates_in_window row) ∧
  (∃ data items,
     read_json path = inr data ∧ incidents_of data items ∧
     ∀ row, row ∈ df ↔
            ∃ incident record,
              incident ∈ items ∧
              incident_record incident = inr (Some record) ∧
              row = numeric_coordinates parse_number record ∧
              coordinates_in_window row).
Proof.
  intros Hload.
  destruct (load_some_inv _ _ _ _ Hload) as (data & Hread & Hproc).
  destruct (process_some _ _ _ Hproc) as (items & records & Hitems & Hrec & Heq).
  inversion Heq; subst; clear Heq.
  assert (Hrows : ∀ row,
    row ∈ filter (λ r, in_window r = true)
            (dropna (numeric_coordinates parse_number <$> records)) ↔
    ∃ incident record,
      incident ∈ items ∧ incident_record incident = inr (Some record) ∧
      row = numeric_coordinates parse_number record ∧ coordinates_in_window row).
  { intros row. unfold dropna.
    rewrite !list_elem_of_filter, list_elem_of_fmap. split.
    - intros (Hwin & Hnan & record & -> & Hin).
      apply (collect_records_spec _ _ _ Hrec) in Hin as [Hin | (incident & Hi & Hr)];
        [by apply elem_of_nil in Hin |].
      exists incident, record. repeat split; try done.
      apply kept_iff_in_window; [| done].
      destruct (to_numeric_float parse_number (latitude record)) as [f Hf].
      destruct (to_numeric_float parse_number (longitude record)) as [g Hg].
      exists f, g. simpl. done.
    - intros (incident & record & Hi & Hr & -> & Hwin).
      assert (Hkept : negb (is_nan (latitude (numeric_coordinates parse_number record)))
                      && negb (is_nan (longitude (numeric_coordinates parse_number record)))
                      = true ∧
                      in_window (numeric_coordinates parse_number record) = true).
      { apply kept_iff_in_window; [| done].
        destruct (to_numeric_float parse_number (latitude record)) as [f Hf].
        destruct (to_numeric_float parse_number (longitude record)) as [g Hg].
        exists f, g. simpl. done. }
      destruct Hkept as [Hnan Hw]. repeat split; try done.
      exists record. split; [done |].
      apply (collect_records_spec _ _ _ Hrec). right. eauto. }
  split.
  - intros row Hrow. apply Hrows in Hrow as (_ & _ & _ & _ & _ & Hwin). done.
  - exists data, items. done.
Qed.

(** C10: [load_json_crime_data] returns in every case, and it returns
    [None] when the file cannot be opened or parsed (missing file,
    malformed JSON, any other exception), when the document lacks the
    result / list / incidents structure, when no incident yields a record,
    and when the processing of the document raises any exception. *)
Theorem load_json_never_raises
    (read_json : string → exn + pyval) (parse_number : string → option pyfloat)
    (path : string) :
  (∃ r, load_json_crime_data read_json parse_number path = inr r) ∧
  (∀ e, read_json path = inl e →
        load_json_crime_data read_json parse_number path = inr None) ∧
  (∀ data, read_json path = inr data →
     (¬ has_incidents data →
      load_json_crime_data read_json parse_number path = inr None) ∧
     (∀ items, incidents_of data items → collect_records items [] = inr [] →
      load_json_crime_data read_json parse_number path = inr None) ∧
     (∀ e, process parse_number data = inl e →
      load_json_crime_data read_json parse_number path = inr None)).
Proof.
  rewrite load_of_body. unfold load_body, ebind.
  split; [by eexists |]. split.
  - intros e ->. done.
  - intros data ->. split; [| split].
    + intros Hno. unfold process, ebind.
      destruct (py_contains "result" data) as [|[]] eqn:H1; try done.
      destruct (py_getitem data "result") as [|res] eqn:H2; try done.
      destruct (py_contains "list" res) as [|[]] eqn:H3; try done.
      destruct (py_getitem res "list") as [|lst] eqn:H4; try done.
      destruct (py_contains "incidents" lst) as [|[]] eqn:H5; try done.
      exfalso. apply Hno. by exists res, lst.
    + intros items (res & lst & incidents & H1 & H2 & H3 & H4) Hc.
      unfold process, ebind. rewrite H1, H2, H3, H4, Hc. simpl.
      destruct (py_contains "result" data) as [|[]]; try done.
      destruct (py_contains "list" res) as [|[]]; try done.
      destruct (py_contains "incidents" lst) as [|[]]; try done.
      by destruct (py_len incidents).
    + intros e ->. done.
Qed.

(** The check for an empty table precedes the cleaning of the
    coordinates: a document whose incidents all have coordinates, none of
    them in the window, yields an empty table, not [None]. *)
Example load_json_all_filtered :
  load_json_crime_data (λ _, inr remote_document) sample_parse_number "remote.json"
  = inr (Some ([], "latitude", "longitude", "parent_incident_type", "date")).
Proof. vm_compute. reflexivity. Qed.

Example load_json_sample :
  ∃ row,
    load_json_crime_data sample_read_json sample_parse_number "WLCrime.json"
    = inr (Some ([row], "latitude", "longitude", "parent_incident_type", "date")) ∧
    id row = VInt 1.
Proof. eexists. split; vm_compute; reflexivity. Qed.

Lemma load_json_rows_in_window_witness :
  coordinates_in_window
    {| id := VInt 1; ccn := VNone; date := VNone;
       latitude := VFloat (Fin (404 # 10)); longitude := VFloat (Fin (-869 # 10));
       city := VNone; state := VNone; address := VNone; incident_type := VNone;
       parent_incident_type := VStr "Theft"; parent_incident_type_id := VNone;
       narrative := VNone; agency_id := VNone; customer_id := VNone |}.
Proof.
  refine (proj1 (load_json_rows_in_window sample_read_json sample_parse_number
                   "WLCrime.json" _ "latitude" "longitude" "parent_incident_type" "date" _)
                _ _).
  - vm_compute. reflexivity.
  - left.
Defined.

Lemma load_json_never_raises_witness :
  load_json_crime_data sample_read_json sample_parse_number "missing.json" = inr None ∧
  load_json_crime_data sample_read_json sample_parse_number "broken.json" = inr None.
Proof.
  split.
  - refine (proj1 (proj2 (load_json_never_raises sample_read_json sample_parse_number
                            "missing.json")) (FileNotFoundError "missing.json") _).
    vm_compute. reflexivity.
  - refine (proj1 (proj2 (load_json_never_raises sample_read_json sample_parse_number
                            "broken.json")) (JSONDecodeError "Expecting value") _).
    vm_compute. reflexivity.
Defined.

(** ** The search: Dijkstra and A* *)

Lemma entry_le_key a b : entry_le a b = true → (key a <= key b)%Z.
Proof.
  unfold entry_le. intros H. apply orb_prop in H as [H|H].
  - apply Z.ltb_lt in H. lia.
  - apply andb_prop in H as [H _]. apply Z.eqb_eq in H. lia.
Qed.

Lemma entry_le_total a b : entry_le a b = false → entry_le b a = true.
Proof.
  unfold entry_le. intros H. apply orb_false_elim in H as [H1 H2].
  apply Z.ltb_ge in H1.
  destruct (Z.ltb_spec (key b) (key a)) as [|Hge]; [done |]. simpl.
  assert (Heq : key a = key b) by lia.
  rewrite Heq, Z.eqb_refl in H2 |- *. simpl in *.
  apply Nat.leb_gt in H2. apply Nat.leb_le. lia.
Qed.

Lemma entry_le_trans a b c :
  entry_le a b = true → entry_le b c = true → entry_le a c = true.
Proof.
  unfold entry_le. intros H1 H2.
  apply orb_prop in H1 as [H1|H1]; apply orb_prop in H2 as [H2|H2].
  - apply Z.ltb_lt in H1, H2. apply orb_true_intro. left. apply Z.ltb_lt. lia.
  - apply andb_prop in H2 as [H2 _]. apply Z.ltb_lt in H1. apply Z.eqb_eq in H2.
    apply orb_true_intro. left. apply Z.ltb_lt. lia.
  - apply andb_prop in H1 as [H1 _]. apply Z.ltb_lt in H2. apply Z.eqb_eq in H1.
    apply orb_true_intro. left. apply Z.ltb_lt. lia.
  - apply andb_prop in H1 as [H1 H1']. apply andb_prop in H2 as [H2 H2'].
    apply Z.eqb_eq in H1, H2. apply Nat.leb_le in H1', H2'.
    apply orb_true_intro. right. apply andb_true_intro. split.
    + apply Z.eqb_eq. lia.
    + apply Nat.leb_le. lia.
Qed.

Lemma entry_le_refl a : entry_le a a = true.
Proof.
  unfold entry_le. rewrite Z.eqb_refl, Nat.leb_refl. apply orb_true_r.
Qed.

(** [pop_min] removes one entry, and that entry is least. *)
Lemma pop_min_spec (frontier : list Entry) (m : Entry) (rest : list Entry) :
  pop_min frontier = Some (m, rest) →
  frontier ≡ₚ m :: rest ∧ ∀ e, e ∈ frontier → entry_le m e = true.
Proof.
  revert m rest. induction frontier as [|e frontier IH]; intros m rest H; [discriminate |].
  simpl in H. destruct (pop_min frontier) as [[m' rest']|] eqn:Hpop.
  - destruct (IH m' rest' eq_refl) as [Hperm Hmin].
    destruct (entry_le e m') eqn:Hle; inversion H; subst; clear H.
    + split; [done |]. intros x Hx. apply elem_of_cons in Hx as [-> | Hx].
      * apply entry_le_refl.
      * eapply entry_le_trans; [exact Hle | by apply Hmin].
    + split.
      * rewrite Hperm. apply Permutation_swap.
      * intros x Hx. apply elem_of_cons in Hx as [-> | Hx].
        -- by apply entry_le_total.
        -- by apply Hmin.
  - inversion H; subst; clear H. destruct frontier as [|e' frontier'].
    + split; [done |]. intros x Hx. apply list_elem_of_singleton in Hx as ->.
      apply entry_le_refl.
    + simpl in Hpop. destruct (pop_min frontier') as [[m' ?]|];
        [destruct (entry_le e' m') |]; discriminate.
Qed.

Lemma pop_min_none (frontier : list Entry) : pop_min frontier = None → frontier = [].
Proof.
  destruct frontier as [|e frontier]; [done |]. simpl.
  destruct (pop_min frontier) as [[m rest]|]; [destruct (entry_le e m) |]; discriminate.
Qed.

Lemma path_trans graph s v w total total' :
  path graph s v total → path graph v w total' → path graph s w (total + total').
Proof.
  intros H1 H2. induction H2 as [|x y c t H2 IH Hedge].
  - by rewrite Z.add_0_r.
  - rewrite Z.add_assoc. by eapply path_step.
Qed.

Lemma out_edges_length (graph : WeightedGraphVariant) (n : node) (visited : list node) :
  n ∉ visited →
  length (filter (λ e, e.1.1 ∉ n :: visited) graph) + length (out_edges graph n)
  = length (filter (λ e, e.1.1 ∉ visited) graph).
Proof.
  intros Hn. unfold out_edges. induction graph as [|e graph IH]; [done |].
  rewrite !filter_cons.
  destruct (decide (e.1.1 = n)) as [Heq|Hne].
  - rewrite decide_False.
    + rewrite decide_True by (by rewrite Heq). simpl. lia.
    + intros H. apply H. rewrite Heq. by left.
  - destruct (decide (e.1.1 ∈ visited)) as [Hin|Hnin].
    + rewrite !decide_False; [done | by intros H | intros H; apply H; by right].
    + rewrite !decide_True; [simpl; lia | done |].
      intros H. apply elem_of_cons in H as [H|H]; done.
Qed.

Section SearchCorrect.

Variable graph : WeightedGraphVariant.
Variable heuristic : node → Z.
Variables start goal : node.

Hypothesis Hconsistent : consistent graph heuristic.

Lemma search_inv_init :
  search_inv graph heuristic start goal [mkEntry (heuristic start) start 0] [].
Proof.
  split.
  - right. by left.
  - intros v Hv. by apply elem_of_nil in Hv.
  - intros e He. apply list_elem_of_singleton in He as ->. simpl.
    split; [lia | constructor].
  - apply not_elem_of_nil.
  - constructor.
Qed.

(** Some entry of the frontier bounds every path to a node that has not
    been visited. *)
Lemma frontier_bound frontier visited n total :
  search_inv graph heuristic start goal frontier visited →
  path graph start n total → n ∉ visited →
  ∃ e, e ∈ frontier ∧ (key e <= total + heuristic n)%Z.
Proof.
  intros Hinv Hpath. induction Hpath as [|v w c total Hpath IH Hedge]; intros Hn.
  - destruct (inv_start _ _ _ _ _ _ Hinv) as [Hs | Hs]; [done |].
    eexists. split; [exact Hs |]. simpl. lia.
  - destruct (decide (v ∈ visited)) as [Hv | Hv].
    + destruct (inv_visited _ _ _ _ _ _ Hinv v Hv) as (g & _ & Hopt & Hpush & _).
      eexists. split; [exact (Hpush w c Hedge Hn) |]. simpl.
      specialize (Hopt total Hpath). lia.
    + destruct (IH Hv) as (e & He & Hkey). exists e. split; [done |].
      specialize (Hconsistent v w c Hedge). lia.
Qed.

(** The accumulated cost of the least entry is the cost of a cheapest
    path to its node, when the node has not been visited. *)
Lemma pop_min_cheapest frontier visited e rest :
  search_inv graph heuristic start goal frontier visited →
  pop_min frontier = Some (e, rest) → at_node e ∉ visited →
  ∀ total, path graph start (at_node e) total → (accumulated e <= total)%Z.
Proof.
  intros Hinv Hpop Hn total Hpath.
  destruct (pop_min_spec _ _ _ Hpop) as [Hperm Hmin].
  destruct (frontier_bound _ _ _ _ Hinv Hpath Hn) as (e' & He' & Hkey).
  assert (He : e ∈ frontier) by (rewrite Hperm; by left).
  destruct (inv_frontier _ _ _ _ _ _ Hinv e He) as [Hk _].
  pose proof (entry_le_key _ _ (Hmin e' He')). lia.
Qed.

(** An entry whose node has been visited is dropped. *)
Lemma search_inv_skip frontier visited e rest :
  search_inv graph heuristic start goal frontier visited →
  pop_min frontier = Some (e, rest) → at_node e ∈ visited →
  search_inv graph heuristic start goal rest visited.
Proof.
  intros Hinv Hpop Hn.
  destruct (pop_min_spec _ _ _ Hpop) as [Hperm _].
  assert (Hsub : ∀ x, x ∈ rest → x ∈ frontier)
    by (intros x Hx; rewrite Hperm; by right).
  assert (Hkeep : ∀ x, x ∈ frontier → at_node x ∉ visited → x ∈ rest).
  { intros x Hx Hnx. rewrite Hperm in Hx. apply elem_of_cons in Hx as [-> | Hx]; done. }
  split.
  - destruct (inv_start _ _ _ _ _ _ Hinv) as [Hs | Hs]; [by left |].
    destruct (decide (start ∈ visited)) as [|Hns]; [by left |].
    right. by apply (Hkeep _ Hs).
  - intros v Hv.
    destruct (inv_visited _ _ _ _ _ _ Hinv v Hv) as (g & Hp & Hopt & Hpush & Hkey).
    exists g. repeat split; try done.
    + intros w c Hedge Hw. apply Hkeep; [by apply Hpush | done].
    + intros x Hx. by apply Hkey, Hsub.
  - intros x Hx. by apply (inv_frontier _ _ _ _ _ _ Hinv), Hsub.
  - apply (inv_goal _ _ _ _ _ _ Hinv).
  - apply (inv_nodup _ _ _ _ _ _ Hinv).
Qed.

(** A node that is visited pushes its neighbours. *)
Lemma search_inv_visit frontier visited e rest :
  search_inv graph heuristic start goal frontier visited →
  pop_min frontier = Some (e, rest) → at_node e ∉ visited → at_node e ≠ goal →
  search_inv graph heuristic start goal
    (rest ++ pushes graph heuristic (at_node e) (accumulated e))
    (at_node e :: visited).
Proof.
  intros Hinv Hpop Hn Hgoal.
  pose proof (pop_min_cheapest _ _ _ _ Hinv Hpop Hn) as Hcheap.
  destruct (pop_min_spec _ _ _ Hpop) as [Hperm Hmin].
  assert (He : e ∈ frontier) by (rewrite Hperm; by left).
  destruct (inv_frontier _ _ _ _ _ _ Hinv e He) as [Hk Hpath].
  assert (Hkeep : ∀ x, x ∈ frontier → at_node x ≠ at_node e → x ∈ rest).
  { intros x Hx Hnx. rewrite Hperm in Hx. apply elem_of_cons in Hx as [-> | Hx]; done. }
  assert (Hpushed : ∀ x, x ∈ pushes graph heuristic (at_node e) (accumulated e) →
            ∃ w c, (at_node e, w, c) ∈ graph ∧
                   x = mkEntry (accumulated e + c + heuristic w) w (accumulated e + c)).
  { intros x Hx. unfold pushes, out_edges in Hx.
    apply list_elem_of_fmap in Hx as ([[u w] c] & -> & Hin).
    apply list_elem_of_filter in Hin as [Hu Hin]. simpl in Hu. subst u.
    exists w, c. done. }
  split.
  - destruct (inv_start _ _ _ _ _ _ Hinv) as [Hs | Hs]; [left; by right |].
    destruct (decide (start = at_node e)) as [-> | Hne]; [left; by left |].
    right. apply elem_of_app. left. by apply Hkeep.
  - intros v Hv. apply elem_of_cons in Hv as [-> | Hv].
    + exists (accumulated e). repeat split; try done.
      * intros w c Hedge Hw. apply elem_of_app. right.
        unfold pushes, out_edges. apply list_elem_of_fmap.
        exists (at_node e, w, c). split; [done |].
        apply list_elem_of_filter. done.
      * intros x Hx. apply elem_of_app in Hx as [Hx | Hx].
        -- assert (Hxf : x ∈ frontier) by (rewrite Hperm; by right).
           pose proof (entry_le_key _ _ (Hmin x Hxf)). lia.
        -- destruct (Hpushed x Hx) as (w & c & Hedge & ->). simpl.
           specialize (Hconsistent _ _ _ Hedge). lia.
    + destruct (inv_visited _ _ _ _ _ _ Hinv v Hv) as (g & Hp & Hopt & Hpush & Hkey).
      exists g. repeat split; try done.
      * intros w c Hedge Hw. apply not_elem_of_cons in Hw as [Hwe Hw].
        apply elem_of_app. left. apply Hkeep; [by apply Hpush | done].
      * intros x Hx. apply elem_of_app in Hx as [Hx | Hx].
        -- apply Hkey. rewrite Hperm. by right.
        -- destruct (Hpushed x Hx) as (w & c & Hedge & ->). simpl.
           specialize (Hkey e He). specialize (Hconsistent _ _ _ Hedge). lia.
  - intros x Hx. apply elem_of_app in Hx as [Hx | Hx].
    + apply (inv_frontier _ _ _ _ _ _ Hinv). rewrite Hperm. by right.
    + destruct (Hpushed x Hx) as (w & c & Hedge & ->). simpl.
      split; [done |]. by eapply path_step.
  - apply not_elem_of_cons. split; [done | apply (inv_goal _ _ _ _ _ _ Hinv)].
  - constructor; [done | apply (inv_nodup _ _ _ _ _ _ Hinv)].
Qed.

(** Whatever the fuel, a search that ends has found a cheapest path or
    has shown that there is none. *)
Lemma search_correct fuel frontier visited :
  search_inv graph heuristic start goal frontier visited →
  search_post graph heuristic start goal
    (search graph heuristic goal fuel frontier visited).
Proof.
  revert frontier visited. induction fuel as [|fuel IH]; intros frontier visited Hinv;
    [done |].
  simpl. destruct (pop_min frontier) as [[e rest]|] eqn:Hpop.
  - case_bool_decide as Hvis; [apply IH; by eapply search_inv_skip |].
    case_bool_decide as Hgoal; [| apply IH; by eapply search_inv_visit].
    destruct (pop_min_spec _ _ _ Hpop) as [Hperm Hmin].
    assert (He : e ∈ frontier) by (rewrite Hperm; by left).
    destruct (inv_frontier _ _ _ _ _ _ Hinv e He) as [Hk Hpath].
    pose proof (pop_min_cheapest _ _ _ _ Hinv Hpop Hvis) as Hcheap.
    simpl. rewrite Hgoal in *. repeat split.
    + done.
    + done.
    + constructor; [done | apply (inv_nodup _ _ _ _ _ _ Hinv)].
    + by left.
    + intros v Hv. apply elem_of_cons in Hv as [-> | Hv]; [by left | right].
      destruct (inv_visited _ _ _ _ _ _ Hinv v Hv) as (g & Hp & _ & _ & Hkey).
      exists g. split; [done |]. specialize (Hkey e He). lia.
    + intros n g Hp Hn. apply not_elem_of_cons in Hn as [_ Hn].
      destruct (frontier_bound _ _ _ _ Hinv Hp Hn) as (e' & He' & Hkey).
      pose proof (entry_le_key _ _ (Hmin e' He')). lia.
  - apply pop_min_none in Hpop. subst frontier. simpl. repeat split.
    + intros total Hp.
      destruct (frontier_bound _ _ _ _ Hinv Hp (inv_goal _ _ _ _ _ _ Hinv))
        as (e & He & _).
      by apply elem_of_nil in He.
    + apply (inv_nodup _ _ _ _ _ _ Hinv).
    + intros v Hv.
      destruct (inv_visited _ _ _ _ _ _ Hinv v Hv) as (g & Hp & _). eauto.
    + intros n g Hp. destruct (decide (n ∈ visited)) as [|Hn]; [done |].
      destruct (frontier_bound _ _ _ _ Hinv Hp Hn) as (e & He & _).
      by apply elem_of_nil in He.
Qed.

(** The fuel that a search needs. *)
Lemma search_fuel fuel frontier visited :
  length frontier + length (filter (λ e, e.1.1 ∉ visited) graph) < fuel →
  search graph heuristic goal fuel frontier visited ≠ OutOfFuel.
Proof.
  revert frontier visited. induction fuel as [|fuel IH]; intros frontier visited Hlt;
    [lia |].
  simpl. destruct (pop_min frontier) as [[e rest]|] eqn:Hpop; [| done].
  destruct (pop_min_spec _ _ _ Hpop) as [Hperm _].
  apply Permutation_length in Hperm. simpl in Hperm.
  case_bool_decide as Hvis; [apply IH; lia |].
  case_bool_decide as Hgoal; [done |].
  apply IH. rewrite length_app. unfold pushes. rewrite length_fmap.
  pose proof (out_edges_length graph (at_node e) visited Hvis). lia.
Qed.

End SearchCorrect.

Lemma nonnegative_consistent graph : nonnegative graph → consistent graph (λ _, 0%Z).
Proof. intros H u v c Hedge. specialize (H u v c Hedge). lia. Qed.

Lemma consistent_forall graph heuristic :
  Forall (λ e, (heuristic e.1.1 <= e.2 + heuristic e.1.2)%Z) graph →
  consistent graph heuristic.
Proof.
  intros H u v c Hedge. rewrite Forall_forall in H.
  exact (H (u, v, c) Hedge).
Qed.

Lemma nonnegative_forall graph :
  Forall (λ e, (0 <= e.2)%Z) graph → nonnegative graph.
Proof.
  intros H u v c Hedge. rewrite Forall_forall in H.
  exact (H (u, v, c) Hedge).
Qed.

(** Along a path, a consistent heuristic decreases by at most the cost. *)
Lemma consistent_path graph heuristic n w total :
  consistent graph heuristic → path graph n w total →
  (heuristic n <= total + heuristic w)%Z.
Proof.
  intros Hc Hp. induction Hp as [|v w c total Hp IH Hedge]; [lia |].
  specialize (Hc v w c Hedge). lia.
Qed.

Lemma consistent_admissible graph heuristic goal :
  consistent graph heuristic → (heuristic goal <= 0)%Z →
  admissible graph heuristic goal.
Proof.
  intros Hc Hg n total Hp. pose proof (consistent_path _ _ _ _ _ Hc Hp). lia.
Qed.

Lemma dijkstra_correct graph start goal :
  nonnegative graph →
  dijkstra graph start goal ≠ OutOfFuel ∧
  search_post graph (λ _, 0%Z) start goal (dijkstra graph start goal).
Proof.
  intros Hnn. unfold dijkstra. split.
  - apply search_fuel. simpl. apply -> Nat.succ_lt_mono. apply Nat.lt_succ_r.
    apply length_filter.
  - apply search_correct; [by apply nonnegative_consistent |].
    apply (search_inv_init graph (λ _, 0%Z) start goal).
Qed.

Lemma astar_correct graph heuristic start goal :
  consistent graph heuristic →
  astar graph heuristic start goal ≠ OutOfFuel ∧
  search_post graph heuristic start goal (astar graph heuristic start goal).
Proof.
  intros Hc. unfold astar. split.
  - apply search_fuel. simpl. apply -> Nat.succ_lt_mono. apply Nat.lt_succ_r.
    apply length_filter.
  - apply search_correct; [done | apply search_inv_init].
Qed.

Lemma length_le_of_subset (small large : list node) :
  NoDup small → (∀ v, v ∈ small → v ∈ large) → (length small ≤ length large)%nat.
Proof.
  intros Hnd Hsub. apply submseteq_length, NoDup_submseteq; done.
Qed.




(** * Further properties of main.py *)

(** ** Request validation *)

Lemma validate_latitude_inr v p :
  RouteRequestModel.validate_latitude v = inr p → p = v.
Proof.
  unfold RouteRequestModel.validate_latitude.
  destruct (negb _); [discriminate | congruence].
Qed.

Lemma validate_longitude_inr v p :
  RouteRequestModel.validate_longitude v = inr p → p = v.
Proof.
  unfold RouteRequestModel.validate_longitude.
  destruct (negb _); [discriminate | congruence].
Qed.

Lemma validate_route_type_inr v p :
  RouteRequestModel.validate_route_type v = inr p → p = v.
Proof.
  unfold RouteRequestModel.validate_route_type.
  destruct (negb _); [discriminate | congruence].
Qed.

Lemma validate_algorithm_inr v p :
  RouteRequestModel.validate_algorithm v = inr p → p = v.
Proof.
  unfold RouteRequestModel.validate_algorithm.
  destruct (negb _); [discriminate | congruence].
Qed.


Lemma field_error_elem {A} (name field : string) (r : string + A) :
  field ∈ (field_error name r).*1 ↔ field = name ∧ ¬ is_ok r.
Proof.
  destruct r as [msg|a]; simpl.
  - rewrite list_elem_of_singleton. tauto.
  - split; [intros H; by apply elem_of_nil in H | tauto].
Qed.

(** X2: the validation error of a rejected single-route request names
    every field that failed, not only the first one: a field is listed
    exactly when its own value is invalid, and only the six fields of the
    model are ever listed. *)
Theorem validation_error_fields
    (start_lat start_lon end_lat end_lon : pyfloat) (route_type : string)
    (algorithm : option string) (e : exn) :
  RouteRequestModel.new start_lat start_lon end_lat end_lon route_type algorithm = inl e →
  ∃ errors,
    e = ValidationError errors ∧ errors ≠ [] ∧
    ("start_lat" ∈ errors.*1 ↔ ¬ in_range (-90) 90 start_lat) ∧
    ("start_lon" ∈ errors.*1 ↔ ¬ in_range (-180) 180 start_lon) ∧
    ("end_lat" ∈ errors.*1 ↔ ¬ in_range (-90) 90 end_lat) ∧
    ("end_lon" ∈ errors.*1 ↔ ¬ in_range (-180) 180 end_lon) ∧
    ("route_type" ∈ errors.*1 ↔ route_type ∉ valid_types) ∧
    ("algorithm" ∈ errors.*1 ↔ default "dijkstra" algorithm ∉ valid_algorithms) ∧
    (∀ field, field ∈ errors.*1 →
       field ∈ ["start_lat"; "start_lon"; "end_lat"; "end_lon"; "route_type"; "algorithm"]).
Proof.
  intros Hnew.
  assert (Halg : default "dijkstra" algorithm ∈ valid_algorithms ↔
                 is_ok (match algorithm with
                        | None => inr "dijkstra"
                        | Some a => RouteRequestModel.validate_algorithm a
                        end)).
  { destruct algorithm as [a|]; simpl.
    - by rewrite validate_algorithm_ok.
    - split; [done | intros _; apply (bool_decide_unpack _); by vm_compute]. }
  unfold RouteRequestModel.new in Hnew.
  set (r1 := RouteRequestModel.validate_latitude start_lat) in *.
  set (r2 := RouteRequestModel.validate_longitude start_lon) in *.
  set (r3 := RouteRequestModel.validate_latitude end_lat) in *.
  set (r4 := RouteRequestModel.validate_longitude end_lon) in *.
  set (r5 := RouteRequestModel.validate_route_type route_type) in *.
  set (r6 := match algorithm with
             | None => inr "dijkstra"
             | Some a => RouteRequestModel.validate_algorithm a
             end) in *.
  set (errors := (field_error "start_lat" r1 ++ field_error "start_lon" r2 ++
                  field_error "end_lat" r3 ++ field_error "end_lon" r4 ++
                  field_error "route_type" r5 ++ field_error "algorithm" r6)%list) in *.
  assert (He : e = ValidationError errors ∧
               ¬ (is_ok r1 ∧ is_ok r2 ∧ is_ok r3 ∧ is_ok r4 ∧ is_ok r5 ∧ is_ok r6)).
  { destruct r1, r2, r3, r4, r5, r6; simpl in *; inversion Hnew; split; tauto. }
  destruct He as [-> Hbad]. exists errors.
  rewrite <- !validate_latitude_ok, <- !validate_longitude_ok, <- validate_route_type_ok,
    Halg.
  fold r1 r2 r3 r4 r5 r6. clear Halg.
  assert (Hin : ∀ field, field ∈ errors.*1 ↔
            (field = "start_lat" ∧ ¬ is_ok r1) ∨ (field = "start_lon" ∧ ¬ is_ok r2) ∨
            (field = "end_lat" ∧ ¬ is_ok r3) ∨ (field = "end_lon" ∧ ¬ is_ok r4) ∨
            (field = "route_type" ∧ ¬ is_ok r5) ∨ (field = "algorithm" ∧ ¬ is_ok r6)).
  { intros field. unfold errors. rewrite !fmap_app, !elem_of_app, !field_error_elem. tauto. }
  split; [done |]. split.
  - intros Hnil. apply Hbad.
    assert (Hnone : ∀ field, ¬ field ∈ errors.*1)
      by (intros field; rewrite Hnil; apply not_elem_of_nil).
    repeat split.
    + destruct r1; [| done]. exfalso. apply (Hnone "start_lat"), Hin. left. tauto.
    + destruct r2; [| done]. exfalso. apply (Hnone "start_lon"), Hin. right. left. tauto.
    + destruct r3; [| done]. exfalso. apply (Hnone "end_lat"), Hin. do 2 right. left. tauto.
    + destruct r4; [| done]. exfalso. apply (Hnone "end_lon"), Hin. do 3 right. left. tauto.
    + destruct r5; [| done]. exfalso. apply (Hnone "route_type"), Hin. do 4 right. left. tauto.
    + destruct r6; [| done]. exfalso. apply (Hnone "algorithm"), Hin. do 5 right. tauto.
  - repeat split; try (rewrite Hin; intuition discriminate).
    intros field Hf. apply Hin in Hf. rewrite !elem_of_cons. tauto.
Qed.

Lemma validation_error_fields_witness :
  ∃ errors,
    RouteRequestModel.new NaN (Fin 0) (Fin 0) (Fin 0) "fastest" (Some "bfs")
    = inl (ValidationError errors) ∧
    errors.*1 = ["start_lat"; "algorithm"].
Proof.
  destruct (validation_error_fields NaN (Fin 0) (Fin 0) (Fin 0) "fastest" (Some "bfs")
              (ValidationError
                 [("start_lat", "Latitude must be between -90 and 90");
                  ("algorithm", "Algorithm must be one of: ['dijkstra', 'astar']")])
              eq_refl) as (errors & He & _).
  exists errors. inversion He; subst. split; reflexivity.
Defined.

(** X3: the modes that /modes advertises are, in this order, the four
    route types that a route request may name (and that a comparison
    uses by default), and each has a name and a description. *)
Theorem modes_are_route_types (w : World) :
  ∃ r, get_available_modes w = (inr r, w) ∧
       (modes r).*1 = valid_types ∧
       (∀ v, v ∈ (modes r).*1 ↔ is_ok (RouteRequestModel.validate_route_type v)) ∧
       Forall (λ m, m.2.*1 = ["name"; "description"]) (modes r).
Proof.
  eexists. split; [reflexivity |]. simpl. split; [reflexivity |]. split.
  - intros v. by rewrite validate_route_type_ok.
  - repeat constructor.
Qed.

(** ** The handlers on an initialized system *)

Lemma try_except_raises {A} (body : M World A) (wrap : exn → exn) (w : World) (e : exn) :
  (try_except body (λ e, raise (wrap e)) w).1 = inl e → ∃ e0, e = wrap e0.
Proof.
  unfold try_except, raise. destruct (body w) as [[e0|a] w']; simpl; [| discriminate].
  intros [= <-]. eauto.
Qed.

(** X4: on an initialized system, POST /route makes one call on the route
    calculator, with the six values of the request, and answers with the
    result of that call field by field; a result that carries an error
    message is an ordinary response with that message.  When the call
    raises, the handler raises the HTTP error 500 whose detail holds the
    text of the exception. *)
Theorem calculate_route_initialized (imports : Imports) (w : World) (rc : loc)
    (request : RouteRequestModel.t) :
  initialized (app w) = true →
  route_calculator (app w) = Some rc →
  let internal_request :=
    {| rq_start_lat := RouteRequestModel.start_lat request;
       rq_start_lon := RouteRequestModel.start_lon request;
       rq_end_lat := RouteRequestModel.end_lat request;
       rq_end_lon := RouteRequestModel.end_lon request;
       rq_route_type := RouteRequestModel.route_type request;
       rq_algorithm := RouteRequestModel.algorithm request |} in
  let outcome :=
    RouteCalculator.calculate_route (route_calculator_py imports) rc internal_request
      (heap w) in
  calculate_route imports request w
  = (match outcome.1 with
     | inr result => inr (to_response result)
     | inl e => inl (HTTPException 500 ("Route calculation failed: " ++ str e))
     end,
     {| app := app w; heap := outcome.2;
        calls := calls w ++ [CalculateRoute internal_request] |}) ∧
  (∀ result msg,
     outcome.1 = inr result → error_message result = Some msg →
     ∃ response,
       (calculate_route imports request w).1 = inr response ∧
       resp_error_message response = Some msg ∧
       resp_route response = route result).
Proof.
  intros Hinit Hrc internal_request outcome.
  assert (Heq : calculate_route imports request w
    = (match outcome.1 with
       | inr result => inr (to_response result)
       | inl e => inl (HTTPException 500 ("Route calculation failed: " ++ str e))
       end,
       {| app := app w; heap := outcome.2;
          calls := calls w ++ [CalculateRoute internal_request] |})).
  { unfold calculate_route, bind, get_app, try_except, lift, invoke, ret, raise. simpl.
    rewrite Hinit, Hrc. simpl. fold internal_request. fold outcome.
    by destruct outcome as [[e|result] h']. }
  split; [exact Heq |].
  intros result msg Hout Hmsg. rewrite Heq, Hout. simpl.
  eexists. split; [reflexivity |]. by simpl.
Qed.

Lemma calculate_route_initialized_witness :
  ∃ response,
    (calculate_route (sample_imports true)
       (RouteRequestModel.mk (Fin 40) (Fin (-87)) (Fin 40) (Fin (-87)) "fastest" "astar")
       started_world).1 = inr response ∧
    resp_algorithm_used response = "astar" ∧
    resp_error_message response = None.
Proof.
  assert (Hinit : initialized (app started_world) = true) by (vm_compute; reflexivity).
  assert (Hrc : route_calculator (app started_world) = Some 7%positive)
    by (vm_compute; reflexivity).
  pose proof (proj1 (calculate_route_initialized (sample_imports true) started_world
                       7%positive
                       (RouteRequestModel.mk (Fin 40) (Fin (-87)) (Fin 40) (Fin (-87))
                          "fastest" "astar") Hinit Hrc)) as H.
  rewrite H. eexists. split; [vm_compute; reflexivity |]. split; reflexivity.
Defined.

(** A handler that is guarded by the [initialized] flag and wraps what its
    [try] block raises. *)
Lemma guarded_handler_raises {A} (body : AppState → M World A) (detail : exn → string)
    (w : World) (e : exn) :
  ((let! st := get_app in
    if negb (initialized st) then raise not_initialized
    else try_except (body st) (λ e, raise (HTTPException 500 (detail e)))) w).1 = inl e →
  (initialized (app w) = false ∧
   e = HTTPException 503 "System not initialized. Check /health for details.") ∨
  (initialized (app w) = true ∧ ∃ detail, e = HTTPException 500 detail).
Proof.
  unfold bind at 1. unfold get_app. simpl.
  destruct (initialized (app w)); simpl.
  - intros H. right. split; [done |].
    apply (try_except_raises _ (λ e, HTTPException 500 (detail e))) in H as [e0 ->]. eauto.
  - unfold raise. simpl. intros [= <-]. by left.
Qed.

(** X5: the only exceptions that the handlers of /route, /route/compare
    and /stats raise are HTTP errors: 503 when the system is not
    initialized, 500 otherwise; no exception of a collaborator reaches
    the caller as it is. *)
Theorem handlers_raise_http_errors (imports : Imports) (w : World)
    (request : RouteRequestModel.t) (compare_request : RouteCompareRequestModel.t)
    (e : exn) :
  (calculate_route imports request w).1 = inl e ∨
  (compare_routes imports compare_request w).1 = inl e ∨
  (get_system_stats imports w).1 = inl e →
  (initialized (app w) = false ∧
   e = HTTPException 503 "System not initialized. Check /health for details.") ∨
  (initialized (app w) = true ∧ ∃ detail, e = HTTPException 500 detail).
Proof.
  intros [H | [H | H]].
  - exact (guarded_handler_raises _ _ _ _ H).
  - exact (guarded_handler_raises _ _ _ _ H).
  - exact (guarded_handler_raises _ _ _ _ H).
Qed.

Lemma handlers_raise_http_errors_witness :
  initialized (app degraded_world) = false ∧
  (get_system_stats (sample_imports false) degraded_world).1
  = inl (HTTPException 503 "System not initialized. Check /health for details.").
Proof.
  assert (H : (get_system_stats (sample_imports false) degraded_world).1
              = inl (HTTPException 503 "System not initialized. Check /health for details."))
    by (vm_compute; reflexivity).
  destruct (handlers_raise_http_errors (sample_imports false) degraded_world
              (RouteRequestModel.mk (Fin 0) (Fin 0) (Fin 0) (Fin 0) "fastest" "dijkstra")
              (RouteCompareRequestModel.mk (Fin 0) (Fin 0) (Fin 0) (Fin 0) None "dijkstra")
              _ (or_intror (or_intror H))) as [[Hi _] | [Hi _]].
  - split; [exact Hi | exact H].
  - split; [| exact H]. vm_compute. reflexivity.
Defined.

(** X6: a comparison request is not checked beyond its coordinates: the
    route types it names - unknown names and repetitions included - and
    its algorithm reach the route calculator as they were given, in one
    call, and the answer has the keys of the mapping that the call
    returns. *)
Theorem compare_routes_forwards (imports : Imports) (w : World) (rc : loc)
    (start_lat start_lon end_lat end_lon : pyfloat) (route_types : list string)
    (algorithm : string) (request : RouteCompareRequestModel.t) :
  RouteCompareRequestModel.new start_lat start_lon end_lat end_lon
    (Some route_types) (Some algorithm) = inr request →
  initialized (app w) = true →
  route_calculator (app w) = Some rc →
  let outcome :=
    RouteCalculator.compare_routes (route_calculator_py imports) rc
      start_lat start_lon end_lat end_lon route_types algorithm (heap w) in
  calls (compare_routes imports request w).2
  = (calls w ++ [CompareRoutes start_lat start_lon end_lat end_lon
                   route_types algorithm])%list ∧
  (compare_routes imports request w).1
  = match outcome.1 with
    | inr results => inr (to_response <$> results)
    | inl e => inl (HTTPException 500 ("Route comparison failed: " ++ str e))
    end ∧
  (∀ results response,
     outcome.1 = inr results →
     (compare_routes imports request w).1 = inr response →
     dom response = dom results).
Proof.
  intros Hnew Hinit Hrc outcome.
  assert (Hreq : request = RouteCompareRequestModel.mk start_lat start_lon end_lat end_lon
                             (Some route_types) algorithm).
  { unfold RouteCompareRequestModel.new, RouteCompareRequestModel.validate_latitude,
      RouteCompareRequestModel.validate_longitude in Hnew.
    repeat match type of Hnew with
           | context [if ?b then _ else _] => destruct b
           end; simpl in Hnew; congruence. }
  subst request.
  assert (Heq : compare_routes imports
                  (RouteCompareRequestModel.mk start_lat start_lon end_lat end_lon
                     (Some route_types) algorithm) w
    = (match outcome.1 with
       | inr results => inr (to_response <$> results)
       | inl e => inl (HTTPException 500 ("Route comparison failed: " ++ str e))
       end,
       {| app := app w; heap := outcome.2;
          calls := calls w ++ [CompareRoutes start_lat start_lon end_lat end_lon
                                 route_types algorithm] |})).
  { unfold compare_routes, bind, get_app, try_except, lift, invoke, ret, raise. simpl.
    rewrite Hinit, Hrc. simpl. fold outcome.
    destruct outcome as [[e|results] h']; simpl; by rewrite ?response_fmap. }
  rewrite Heq. simpl. split; [done |]. split; [done |].
  intros results response ->. intros [= <-]. by rewrite dom_fmap_L.
Qed.

Lemma compare_routes_forwards_witness :
  calls (compare_routes (sample_imports true)
           (RouteCompareRequestModel.mk (Fin 40) (Fin (-87)) (Fin 40) (Fin (-87))
              (Some ["teleport"; "safe"; "safe"]) "bogus")
           started_world).2
  = [CompareRoutes (Fin 40) (Fin (-87)) (Fin 40) (Fin (-87))
       ["teleport"; "safe"; "safe"] "bogus"].
Proof.
  refine (proj1 (compare_routes_forwards (sample_imports true) started_world 7%positive
                   (Fin 40) (Fin (-87)) (Fin 40) (Fin (-87))
                   ["teleport"; "safe"; "safe"] "bogus" _ _ _ _));
    vm_compute; reflexivity.
Defined.

(** ** GET /stats and GET /health: what the answers hold *)

(** X7: a successful /stats answer is the statistics dictionary of the
    route calculator with three entries set by the handler -
    "initialization_time_seconds", "startup_errors" and "initialized",
    which is always true in an answer - and, when calibrated weights are
    present, a "crime_analysis" entry of four numbers; every other entry
    is the route calculator's, and an entry of the route calculator under
    one of these names is overwritten. *)
Theorem get_system_stats_content (imports : Imports) (w : World) (rc l : loc)
    (h1 : gmap loc (gmap string pyval)) (stats : gmap string pyval) :
  initialized (app w) = true →
  route_calculator (app w) = Some rc →
  RouteCalculator.get_route_statistics (route_calculator_py imports) rc (heap w)
    = (inr l, h1) →
  (get_system_stats imports w).1 = inr stats →
  stats !! "initialization_time_seconds" = Some (VFloat (initialization_time (app w))) ∧
  stats !! "initialized" = Some (VBool true) ∧
  stats !! "startup_errors" = Some (VList (VStr <$> startup_errors (app w))) ∧
  (∀ k, k ∉ ["initialization_time_seconds"; "initialized"; "startup_errors";
             "crime_analysis"] →
        stats !! k = default ∅ (h1 !! l) !! k) ∧
  match calibrated_weights (app w) with
  | None => stats !! "crime_analysis" = default ∅ (h1 !! l) !! "crime_analysis"
  | Some _ =>
      ∃ total indy wl mapped,
        stats !! "crime_analysis"
        = Some (VDict [("total_crimes", total); ("indy_crimes", indy);
                       ("wl_crimes", wl); ("crime_types_mapped", VInt mapped)]) ∧
        (0 <= mapped)%Z
  end.
Proof.
  intros Hinit Hrc Hcall Hstats.
  assert (Hkeys : ∀ k, k ∉ ["initialization_time_seconds"; "initialized"; "startup_errors";
                            "crime_analysis"] →
            k ≠ "initialization_time_seconds" ∧ k ≠ "initialized" ∧
            k ≠ "startup_errors" ∧ k ≠ "crime_analysis").
  { intros k Hk. repeat split; intros ->; apply Hk; apply (bool_decide_unpack _);
      by vm_compute. }
  unfold get_system_stats, bind, get_app, try_except, lift, invoke, raise in Hstats.
  simpl in Hstats. rewrite Hinit, Hrc in Hstats. simpl in Hstats.
  rewrite Hcall in Hstats. simpl in Hstats.
  unfold add_system_information, bind, get_app, dict_update, modify_heap, get_heap, ret
    in Hstats.
  simpl in Hstats. rewrite Hinit in Hstats.
  destruct (calibrated_weights (app w)) as [cw|]; simpl in Hstats.
  - unfold getattr, bind, get_heap, lift, ret, raise in Hstats. simpl in Hstats.
    set (h2 := <[l := _]> h1) in Hstats.
    destruct (default ∅ (h2 !! cw) !! "calibration_stats") as [cs|];
      simpl in Hstats; [| discriminate].
    destruct (py_get cs "crime_analysis" (VDict [])) as [|crime];
      simpl in Hstats; [discriminate |].
    destruct (py_get crime "total_crime_count" (VInt 0)) as [|total];
      simpl in Hstats; [discriminate |].
    destruct (py_get crime "indy_crime_count" (VInt 0)) as [|indy];
      simpl in Hstats; [discriminate |].
    destruct (py_get crime "wl_crime_count" (VInt 0)) as [|wl];
      simpl in Hstats; [discriminate |].
    destruct (py_get crime "crime_type_weights" (VDict [])) as [|weights];
      simpl in Hstats; [discriminate |].
    destruct (py_len weights) as [|mapped] eqn:Hlen; simpl in Hstats; [discriminate |].
    inversion Hstats as [Heq]. clear Hstats.
    unfold h2. rewrite !lookup_insert_eq. simpl.
    repeat split.
    + by rewrite lookup_insert_ne, lookup_insert_ne, lookup_insert_ne, lookup_insert_eq.
    + by rewrite lookup_insert_ne, lookup_insert_ne, lookup_insert_eq.
    + by rewrite lookup_insert_ne, lookup_insert_eq.
    + intros k Hk. destruct (Hkeys k Hk) as (? & ? & ? & ?).
      by rewrite !lookup_insert_ne.
    + exists total, indy, wl, mapped. rewrite lookup_insert_eq. split; [done |].
      destruct weights; simpl in Hlen; try discriminate; inversion Hlen; lia.
  - inversion Hstats as [Heq]. clear Hstats. rewrite !lookup_insert_eq. simpl.
    repeat split.
    + by rewrite lookup_insert_ne, lookup_insert_ne, lookup_insert_eq.
    + by rewrite lookup_insert_ne, lookup_insert_eq.
    + by rewrite lookup_insert_eq.
    + intros k Hk. destruct (Hkeys k Hk) as (? & ? & ? & ?).
      by rewrite !lookup_insert_ne.
    + by rewrite !lookup_insert_ne.
Qed.

Lemma snapshot_of_eq (summary : loc) (h : gmap loc (gmap string pyval)) :
  snapshot_of summary h
  = (inr (fresh (dom h)), <[fresh (dom h) := default ∅ (h !! summary)]> h).
Proof. reflexivity. Qed.

Lemma get_system_stats_content_witness :
  match (get_system_stats (sample_imports true) started_world).1 with
  | inr stats =>
      stats !! "initialized" = Some (VBool true) ∧
      stats !! "startup_errors" = Some (VList [])
  | inl _ => False
  end.
Proof.
  assert (Hinit : initialized (app started_world) = true) by (vm_compute; reflexivity).
  assert (Hrc : route_calculator (app started_world) = Some 7%positive)
    by (vm_compute; reflexivity).
  assert (Herrs : startup_errors (app started_world) = []) by (vm_compute; reflexivity).
  assert (Hok : match (get_system_stats (sample_imports true) started_world).1 with
                | inr _ => true
                | inl _ => false
                end = true) by (vm_compute; reflexivity).
  pose proof (λ stats,
                get_system_stats_content (sample_imports true) started_world 7%positive
                  _ _ stats Hinit Hrc (snapshot_of_eq 7%positive (heap started_world)))
    as H.
  destruct ((get_system_stats (sample_imports true) started_world).1) as [e|stats].
  - discriminate Hok.
  - destruct (H stats eq_refl) as (_ & Hi & He & _).
    split; [exact Hi |]. by rewrite He, Herrs.
Defined.

Lemma get_system_stats_run (imports : Imports) (w : World) (rc l : loc)
    (h1 : gmap loc (gmap string pyval)) :
  initialized (app w) = true →
  route_calculator (app w) = Some rc →
  RouteCalculator.get_route_statistics (route_calculator_py imports) rc (heap w)
    = (inr l, h1) →
  (get_system_stats imports w).1
  = match (add_system_information l
             {| app := app w; heap := h1;
                calls := calls w ++ [GetRouteStatistics] |}).1 with
    | inr stats => inr stats
    | inl e => inl (HTTPException 500 ("Error retrieving statistics: " ++ str e))
    end.
Proof.
  intros Hinit Hrc Hcall.
  unfold get_system_stats, bind, get_app, try_except, lift, invoke, raise. simpl.
  rewrite Hinit, Hrc. simpl. rewrite Hcall. simpl.
  by destruct (add_system_information l _) as [[e|stats] w2].
Qed.

(** X8: when calibrated weights are present, the "crime_analysis" entry
    of a /stats answer is read from their [calibration_stats]: the three
    counts of its "crime_analysis" dictionary, each 0 when the key is
    missing (all 0 when the dictionary itself is missing), and the number
    of entries of "crime_type_weights", 0 when that is missing. *)
Theorem crime_analysis_entry (imports : Imports) (w : World) (rc l cw : loc)
    (h1 : gmap loc (gmap string pyval)) (attrs : gmap string pyval)
    (calibration crime : list (string * pyval)) (mapped : Z) :
  initialized (app w) = true →
  route_calculator (app w) = Some rc →
  calibrated_weights (app w) = Some cw →
  RouteCalculator.get_route_statistics (route_calculator_py imports) rc (heap w)
    = (inr l, h1) →
  l ≠ cw →
  h1 !! cw = Some attrs →
  attrs !! "calibration_stats" = Some (VDict calibration) →
  default (VDict []) (assoc_get "crime_analysis" calibration) = VDict crime →
  py_len (default (VDict []) (assoc_get "crime_type_weights" crime)) = inr mapped →
  ∃ stats,
    (get_system_stats imports w).1 = inr stats ∧
    stats !! "crime_analysis"
    = Some (VDict [("total_crimes", default (VInt 0) (assoc_get "total_crime_count" crime));
                   ("indy_crimes", default (VInt 0) (assoc_get "indy_crime_count" crime));
                   ("wl_crimes", default (VInt 0) (assoc_get "wl_crime_count" crime));
                   ("crime_types_mapped", VInt mapped)]) ∧
    (assoc_get "crime_analysis" calibration = None →
     stats !! "crime_analysis"
     = Some (VDict [("total_crimes", VInt 0); ("indy_crimes", VInt 0);
                    ("wl_crimes", VInt 0); ("crime_types_mapped", VInt 0)])).
Proof.
  intros Hinit Hrc Hcw Hcall Hne Hattrs Hcal Hcrime Hlen.
  rewrite (get_system_stats_run imports w rc l h1 Hinit Hrc Hcall).
  unfold add_system_information, dict_update, getattr, modify_heap.
  unfold bind, get_app, get_heap, ret, lift, raise.
  simpl. rewrite Hcw. simpl.
  rewrite lookup_insert_ne by done. rewrite Hattrs. simpl. rewrite Hcal. simpl.
  rewrite Hcrime. simpl. rewrite Hlen. simpl.
  eexists. split; [reflexivity |]. rewrite !lookup_insert_eq. simpl.
  rewrite lookup_insert_eq. split; [done |].
  intros Hnone. rewrite Hnone in Hcrime. simpl in Hcrime. inversion Hcrime; subst crime.
  simpl in Hlen. inversion Hlen; subst mapped. done.
Qed.


(** ** GET /health: the statistics it reports *)

(** X10: /health reports graph statistics exactly when the system is
    initialized, a route calculator is present and its statistics call
    returns; when that call raises, /health still answers, without graph
    statistics and with the text of the exception under "stats_error".
    It calls the route calculator at most once, and not at all before
    initialization. *)
Theorem health_check_graph_stats (imports : Imports) (w : World) :
  ∃ response w',
    health_check imports w = (inr response, w') ∧
    system_info response !! "initialization_time_seconds"
    = Some (VFloat (initialization_time (app w))) ∧
    match initialized (app w), route_calculator (app w) with
    | true, Some rc =>
        calls w' = (calls w ++ [GetRouteStatistics])%list ∧
        match RouteCalculator.get_route_statistics (route_calculator_py imports) rc (heap w)
        with
        | (inr l, h1) =>
            graph_stats response = Some (default ∅ (h1 !! l)) ∧
            system_info response !! "stats_error" = None
        | (inl e, _) =>
            graph_stats response = None ∧
            system_info response !! "stats_error" = Some (VStr (str e))
        end
    | _, _ =>
        w' = w ∧ graph_stats response = None ∧
        system_info response !! "stats_error" = None
    end.
Proof.
  destruct w as [st h cs].
  unfold health_check, bind, get_app, get_heap, try_except, invoke, ret. simpl.
  destruct (initialized st) eqn:Hinit; simpl.
  - destruct (route_calculator st) as [rc|] eqn:Hrc; simpl.
    + destruct (RouteCalculator.get_route_statistics _ rc h) as [[e|l] h1] eqn:Hm; simpl;
        eexists _, _; (split; [reflexivity |]); simpl; repeat split; done.
    + eexists _, _. split; [reflexivity |]. simpl. rewrite ?Hinit. repeat split; done.
  - eexists _, _. split; [reflexivity |]. simpl. rewrite ?Hinit. repeat split; done.
Qed.

Lemma crime_analysis_entry_witness :
  match (get_system_stats (sample_imports true) started_world).1 with
  | inr stats =>
      stats !! "crime_analysis"
      = Some (VDict [("total_crimes", VInt 3); ("indy_crimes", VInt 2);
                     ("wl_crimes", VInt 1); ("crime_types_mapped", VInt 1)])
  | inl _ => False
  end.
Proof.
  assert (Hinit : initialized (app started_world) = true) by (vm_compute; reflexivity).
  assert (Hrc : route_calculator (app started_world) = Some 7%positive)
    by (vm_compute; reflexivity).
  assert (Hcw : calibrated_weights (app started_world) = Some 4%positive)
    by (vm_compute; reflexivity).
  assert (Hne : fresh (dom (heap started_world)) ≠ 4%positive)
    by (apply (bool_decide_unpack _); vm_compute; exact I).
  assert (Hattrs :
    (<[fresh (dom (heap started_world)) := default ∅ (heap started_world !! 7%positive)]>
       (heap started_world)) !! 4%positive
    = Some (<["calibration_stats" :=
                VDict [("crime_analysis",
                        VDict [("total_crime_count", VInt 3);
                               ("indy_crime_count", VInt 2);
                               ("wl_crime_count", VInt 1);
                               ("crime_type_weights", VDict [("theft", VInt 1)])])]]> ∅))
    by (vm_compute; reflexivity).
  destruct (crime_analysis_entry (sample_imports true) started_world 7%positive
              _ 4%positive _ _ _ _ 1%Z Hinit Hrc Hcw
              (snapshot_of_eq 7%positive (heap started_world)) Hne Hattrs
              eq_refl eq_refl eq_refl) as (stats & Hrun & Hentry & _).
  rewrite Hrun. exact Hentry.
Defined.


(** ** Startup, continued *)

Ltac step_in H :=
  match type of H with
  | context [match ?x with _ => _ end] =>
      lazymatch x with
      | context [match _ with _ => _ end] => fail
      | _ => destruct x eqn:?
      end; simpl in H; try discriminate H
  end.

(** When the startup block returns, everything it builds has been stored. *)
Lemma initialize_components_success (imports : Imports) (w w1 : World) :
  initialize_components imports w = (inr tt, w1) →
  initialized (app w1) = true ∧
  is_Some (crime_analyzer (app w1)) ∧ is_Some (osm_analyzer (app w1)) ∧
  is_Some (calibrated_weights (app w1)) ∧ is_Some (graph_builder (app w1)) ∧
  is_Some (route_calculator (app w1)) ∧
  startup_errors (app w1) = startup_errors (app w) ∧
  initialization_time (app w1) = fsub (startup_end imports) (startup_start imports) ∧
  calls w1 = calls w.
Proof.
  intros H.
  unfold initialize_components, bind, call, lift, modify_app, ret, raise in H.
  simpl in H. repeat step_in H.
  inversion H; subst; clear H. simpl. repeat split; eauto.
Qed.

(** X11: after [initialize_system] the flag [initialized] is set exactly
    when the startup block returned without raising; the crime analyzer,
    the OSM analyzer, the calibrated weights, the graph builder and the
    route calculator are then all stored in [app_state], no startup error
    has been added, and the initialization time is the difference of the
    two clock readings. *)
Theorem initialize_system_ready (imports : Imports) (w : World) :
  (initialized (app (initialize_system imports w).2) = true ↔
   ∃ w1, initialize_components imports w = (inr tt, w1)) ∧
  (initialized (app (initialize_system imports w).2) = true →
   is_Some (crime_analyzer (app (initialize_system imports w).2)) ∧
   is_Some (osm_analyzer (app (initialize_system imports w).2)) ∧
   is_Some (calibrated_weights (app (initialize_system imports w).2)) ∧
   is_Some (graph_builder (app (initialize_system imports w).2)) ∧
   is_Some (route_calculator (app (initialize_system imports w).2)) ∧
   startup_errors (app (initialize_system imports w).2) = startup_errors (app w) ∧
   initialization_time (app (initialize_system imports w).2)
   = fsub (startup_end imports) (startup_start imports)).
Proof.
  unfold initialize_system, try_except.
  destruct (initialize_components imports w) as [[e|[]] w1] eqn:Hbody; simpl.
  - split.
    + split; [discriminate | intros [w2 H]; discriminate].
    + discriminate.
  - destruct (initialize_components_success imports w w1 Hbody)
      as (Hi & H1 & H2 & H3 & H4 & H5 & H6 & H7 & _).
    split; [split; eauto |]. intros _. repeat split; done.
Qed.

Lemma initialize_system_ready_witness :
  is_Some (route_calculator (app (initialize_system (sample_imports true) initial_world).2)) ∧
  initialization_time (app (initialize_system (sample_imports true) initial_world).2)
  = Fin 2.
Proof.
  assert (Hinit : initialized (app (initialize_system (sample_imports true) initial_world).2)
                  = true) by (vm_compute; reflexivity).
  destruct (proj2 (initialize_system_ready (sample_imports true) initial_world) Hinit)
    as (_ & _ & _ & _ & Hrc & _ & Htime).
  split; [exact Hrc |]. rewrite Htime. reflexivity.
Defined.

(** ** Requests never change [app_state] *)

Lemma keeps_app_ret {A} (a : A) : keeps_app (ret a).
Proof. by intros w. Qed.

Lemma keeps_app_raise {A} (e : exn) : keeps_app (@raise World A e).
Proof. by intros w. Qed.

Lemma keeps_app_lift {A} (r : exn + A) : keeps_app (lift r).
Proof. by intros w. Qed.

Lemma keeps_app_get_app : keeps_app get_app.
Proof. by intros w. Qed.

Lemma keeps_app_get_heap : keeps_app get_heap.
Proof. by intros w. Qed.

Lemma keeps_app_modify_heap f : keeps_app (modify_heap f).
Proof. by intros w. Qed.

Lemma keeps_app_invoke {A} (c : Call) (m : method A) : keeps_app (invoke c m).
Proof. intros w. unfold invoke. by destruct (m (heap w)). Qed.

Lemma keeps_app_bind {A B} (m : M World A) (k : A → M World B) :
  keeps_app m → (∀ a, keeps_app (k a)) → keeps_app (bind m k).
Proof.
  intros Hm Hk w. unfold bind. specialize (Hm w).
  destruct (m w) as [[e|a] w1]; simpl in *; [done |]. by rewrite Hk.
Qed.

Lemma keeps_app_try_except {A} (body : M World A) (handler : exn → M World A) :
  keeps_app body → (∀ e, keeps_app (handler e)) → keeps_app (try_except body handler).
Proof.
  intros Hb Hh w. unfold try_except. specialize (Hb w).
  destruct (body w) as [[e|a] w1]; simpl in *; [| done]. by rewrite Hh.
Qed.

Ltac keeps_app_step :=
  first
    [ apply keeps_app_ret | apply keeps_app_raise | apply keeps_app_lift
    | apply keeps_app_get_app | apply keeps_app_get_heap | apply keeps_app_modify_heap
    | apply keeps_app_invoke
    | apply keeps_app_bind; [| intros ?]
    | apply keeps_app_try_except; [| intros ?]
    | match goal with
      | |- keeps_app (if ?b then _ else _) => destruct b
      | |- keeps_app (match ?o with Some _ => _ | None => _ end) => destruct o
      | |- keeps_app (match ?o with true => _ | false => _ end) => destruct o
      end ].

Lemma serve_keeps_app (imports : Imports) (rq : Request) : keeps_app (serve imports rq).
Proof.
  destruct rq; unfold serve, health_check, get_available_modes, get_system_stats,
    add_system_information, calculate_route, compare_routes, dict_update, getattr;
    repeat keeps_app_step.
Qed.

(** A sequence of computations that each leave [app_state] as it is. *)
Lemma keeps_app_foldl {A B} (f : B → M World A) (l : list B) (w : World) :
  (∀ b, keeps_app (f b)) → app (foldl (λ w b, (f b w).2) w l) = app w.
Proof.
  intros Hf. revert w. induction l as [|b l IH]; intros w; [done |].
  simpl. rewrite IH. apply Hf.
Qed.

(** X12: no request changes [app_state]: after any sequence of requests
    to /health, /modes, /stats, /route and /route/compare the flag
    [initialized], the startup errors and the references to the
    components are what startup left. *)
Theorem serve_all_keeps_app (imports : Imports) (rqs : list Request) (w : World) :
  app (serve_all imports rqs w) = app w.
Proof. apply keeps_app_foldl, serve_keeps_app. Qed.

Lemma initialize_system_failed (imports : Imports) (w w1 : World) (e : exn) :
  initialize_components imports w = (inl e, w1) →
  initialized (app (initialize_system imports w).2) = false ∧
  startup_errors (app (initialize_system imports w).2)
  = (startup_errors (app w) ++ ["System initialization failed: " ++ str e]%string)%list.
Proof.
  intros Hbody. pose proof (initialize_components_keeps imports w) as Hkeep.
  unfold initialize_system, try_except. rewrite Hbody in *. simpl in *.
  by rewrite Hkeep.
Qed.

Lemma lifespan_world {A} (imports : Imports) (serving : M World A) (w : World) :
  lifespan imports serving w = serving (initialize_system imports w).2.
Proof.
  unfold lifespan, bind.
  assert (H : ∃ w', initialize_system imports w = (inr tt, w')).
  { unfold initialize_system, try_except.
    destruct (initialize_components imports w) as [[e|[]] w1]; by eexists. }
  destruct H as [w' H]. by rewrite H.
Qed.

(** X13: when the startup block raises, the application starts all the
    same and stays degraded: after any sequence of requests, /stats,
    /route and /route/compare answer with the HTTP error 503, and /health
    answers "unhealthy", not initialized, with the startup error as the
    last of its errors. *)
Theorem degraded_after_failed_startup (imports : Imports) (w w1 : World) (e : exn)
    (rqs : list Request) (rq : Request) :
  initialize_components imports w = (inl e, w1) →
  match (lifespan imports (λ w, serve imports rq (serve_all imports rqs w)) w).1 with
  | inr (HealthResponse r) =>
      rq = GetHealth ∧ status r = "unhealthy" ∧ health_initialized r = false ∧
      last (errors r) = Some ("System initialization failed: " ++ str e)
  | inr (ModesResponse _) => rq = GetModes
  | inr _ => False
  | inl err =>
      (rq ∉ [GetHealth; GetModes]) ∧
      err = HTTPException 503 "System not initialized. Check /health for details."
  end.
Proof.
  intros Hbody. rewrite lifespan_world.
  destruct (initialize_system_failed imports w w1 e Hbody) as [Hinit Herrs].
  pose proof (keeps_app_foldl (serve imports) rqs (initialize_system imports w).2
                (serve_keeps_app imports)) as Happ.
  fold (serve_all imports rqs (initialize_system imports w).2) in Happ.
  set (w' := serve_all imports rqs (initialize_system imports w).2) in *.
  rewrite <- Happ in Hinit, Herrs.
  assert (Hne : ∀ a b : Request, a ≠ GetHealth → a ≠ GetModes → a ∉ [GetHealth; GetModes]).
  { intros a b H1 H2 Hin. apply elem_of_cons in Hin as [-> | Hin]; [done |].
    apply list_elem_of_singleton in Hin. done. }
  destruct rq as [| | |request|request]; unfold serve, bind.
  - unfold health_check, bind, get_app, get_heap, ret. simpl. rewrite Hinit. simpl.
    rewrite Hinit, Herrs. simpl. repeat split. by rewrite last_snoc.
  - simpl. done.
  - unfold get_system_stats, bind, get_app, raise. simpl. rewrite Hinit. simpl.
    split; [by apply (Hne _ GetStats) | done].
  - unfold calculate_route, bind, get_app, raise. simpl. rewrite Hinit. simpl.
    split; [by apply (Hne _ GetStats) | done].
  - unfold compare_routes, bind, get_app, raise. simpl. rewrite Hinit. simpl.
    split; [by apply (Hne _ GetStats) | done].
Qed.

Lemma degraded_after_failed_startup_witness :
  (lifespan (sample_imports false)
     (λ w, serve (sample_imports false) GetStats
             (serve_all (sample_imports false) [GetHealth; GetModes] w))
     initial_world).1
  = inl (HTTPException 503 "System not initialized. Check /health for details.").
Proof.
  pose proof (degraded_after_failed_startup (sample_imports false) initial_world
                initial_world
                (FileNotFoundError
                   "Indianapolis crime data not found: /srv/pedal/IndianapolisCrime.csv")
                [GetHealth; GetModes] GetStats eq_refl) as H.
  destruct ((lifespan (sample_imports false)
               (λ w, serve (sample_imports false) GetStats
                       (serve_all (sample_imports false) [GetHealth; GetModes] w))
               initial_world).1) as [err|[r|r|r|r|r]].
  - destruct H as [_ ->]. reflexivity.
  - destruct H as [H _]. discriminate H.
  - discriminate H.
  - destruct H.
  - destruct H.
  - destruct H.
Defined.

(** X14: when the startup block returns and no startup error was
    recorded before, the application is ready for good: after any
    sequence of requests /health answers "healthy" and initialized, and
    no endpoint answers with the HTTP error 503. *)
Theorem ready_after_startup (imports : Imports) (w w1 : World)
    (rqs : list Request) (rq : Request) :
  initialize_components imports w = (inr tt, w1) →
  startup_errors (app w) = [] →
  match (lifespan imports (λ w, serve imports rq (serve_all imports rqs w)) w).1 with
  | inr (HealthResponse r) =>
      status r = "healthy" ∧ health_initialized r = true ∧ errors r = []
  | inr _ => True
  | inl err => ∃ detail, err = HTTPException 500 detail
  end.
Proof.
  intros Hbody Hnone. rewrite lifespan_world.
  destruct (initialize_components_success imports w w1 Hbody)
    as (Hinit & _ & _ & _ & _ & _ & Herrs & _).
  assert (Hw1 : (initialize_system imports w).2 = w1)
    by (unfold initialize_system, try_except; by rewrite Hbody).
  rewrite Hw1. rewrite Hnone in Herrs.
  pose proof (keeps_app_foldl (serve imports) rqs w1 (serve_keeps_app imports)) as Happ.
  fold (serve_all imports rqs w1) in Happ.
  set (w' := serve_all imports rqs w1) in *.
  rewrite <- Happ in Hinit, Herrs.
  destruct rq as [| | |request|request]; unfold serve.
  - unfold bind at 1.
    assert (H : ∃ r w2, health_check imports w' = (inr r, w2) ∧
                        status r = "healthy" ∧ health_initialized r = true ∧ errors r = []).
    { unfold health_check, bind, get_app, get_heap, try_except, invoke, ret. simpl.
      rewrite Hinit. simpl.
      destruct (route_calculator (app w')) as [rc|]; simpl.
      - destruct (RouteCalculator.get_route_statistics _ rc (heap w')) as [[e|l] h1]; simpl;
          eexists _, _; (split; [reflexivity |]); simpl; by rewrite Hinit, Herrs.
      - eexists _, _. split; [reflexivity |]. simpl. by rewrite Hinit, Herrs. }
    destruct H as (r & w2 & -> & H). simpl. exact H.
  - simpl. done.
  - unfold bind at 1.
    destruct (get_system_stats imports w') as [[err|r] w2] eqn:Hrun; simpl; [| done].
    assert (H : (get_system_stats imports w').1 = inl err) by (by rewrite Hrun).
    apply guarded_handler_raises in H as [[Hf _] | [_ H]]; [congruence | done].
  - unfold bind at 1.
    destruct (calculate_route imports request w') as [[err|r] w2] eqn:Hrun; simpl; [| done].
    assert (H : (calculate_route imports request w').1 = inl err) by (by rewrite Hrun).
    apply guarded_handler_raises in H as [[Hf _] | [_ H]]; [congruence | done].
  - unfold bind at 1.
    destruct (compare_routes imports request w') as [[err|r] w2] eqn:Hrun; simpl; [| done].
    assert (H : (compare_routes imports request w').1 = inl err) by (by rewrite Hrun).
    apply guarded_handler_raises in H as [[Hf _] | [_ H]]; [congruence | done].
Qed.

Lemma ready_after_startup_witness :
  match (lifespan (sample_imports true)
           (λ w, serve (sample_imports true) GetHealth
                   (serve_all (sample_imports true)
                      [GetStats;
                       PostRoute (RouteRequestModel.mk (Fin 40) (Fin (-87)) (Fin 40)
                                    (Fin (-87)) "safe" "dijkstra")] w))
           initial_world).1 with
  | inr (HealthResponse r) =>
      status r = "healthy" ∧ health_initialized r = true ∧ errors r = []
  | inr _ => True
  | inl err => ∃ detail, err = HTTPException 500 detail
  end.
Proof.
  assert (Hbody : initialize_components (sample_imports true) initial_world
                  = (inr tt, started_world)) by (vm_compute; reflexivity).
  exact (ready_after_startup (sample_imports true) initial_world started_world
           [GetStats;
            PostRoute (RouteRequestModel.mk (Fin 40) (Fin (-87)) (Fin 40)
                         (Fin (-87)) "safe" "dijkstra")]
           GetHealth Hbody eq_refl).
Defined.

(** * Further properties of heatmap.py *)

Section LoadJsonFurther.

Variable read_json : string → exn + pyval.
Variable parse_number : string → option pyfloat.

(** The incidents that the loop visits are determined by the document. *)
Lemma incidents_of_functional (data : pyval) (items items' : list pyval) :
  incidents_of data items → incidents_of data items' → items = items'.
Proof.
  intros (r & l & i & H1 & H2 & H3 & H4) (r' & l' & i' & H1' & H2' & H3' & H4').
  congruence.
Qed.

(** An incident whose record cannot be built stops the loop. *)
Lemma collect_records_raises (items : list pyval) (acc : list Row) incident e :
  incident ∈ items → incident_record incident = inl e →
  ∃ e', collect_records items acc = inl e'.
Proof.
  revert acc. induction items as [|i items IH]; intros acc Hin Hrec.
  - by apply elem_of_nil in Hin.
  - simpl. unfold ebind.
    destruct (incident_record i) as [e'|r] eqn:Hi; [eauto |].
    apply elem_of_cons in Hin as [-> | Hin]; [congruence |].
    by apply IH.
Qed.

(** What [process] has met when it returns [None]. *)
Lemma process_none (data : pyval) :
  process parse_number data = inr None →
  ¬ has_incidents data ∨
  ∃ items, incidents_of data items ∧ collect_records items [] = inr [].
Proof.
  unfold process, ebind. intros H.
  destruct (py_contains "result" data) as [|[]] eqn:H1; try discriminate;
    [| left; intros (r & l & ? & _); congruence].
  destruct (py_getitem data "result") as [|res] eqn:H2; try discriminate.
  destruct (py_contains "list" res) as [|[]] eqn:H3; try discriminate;
    [| left; intros (r & l & _ & ? & ? & _); congruence].
  destruct (py_getitem res "list") as [|lst] eqn:H4; try discriminate.
  destruct (py_contains "incidents" lst) as [|[]] eqn:H5; try discriminate;
    [| left; intros (r & l & _ & ? & _ & ? & ?); congruence].
  destruct (py_getitem lst "incidents") as [|incidents] eqn:H6; try discriminate.
  destruct (py_len incidents); try discriminate.
  destruct (py_iter incidents) as [|items] eqn:Hit; try discriminate.
  destruct (collect_records items []) as [|records] eqn:Hc; try discriminate.
  case_bool_decide as Hlen; try discriminate.
  right. exists items. split; [by exists res, lst, incidents |].
  by destruct records.
Qed.

(** A document without the nested structure gives no table. *)
Lemma process_no_incidents (data : pyval) (result : LoadResult) :
  ¬ has_incidents data → process parse_number data ≠ inr (Some result).
Proof.
  intros Hno Hp. apply Hno. revert Hp. unfold process, ebind.
  destruct (py_contains "result" data) as [|[]] eqn:H1; try discriminate.
  destruct (py_getitem data "result") as [|res] eqn:H2; try discriminate.
  destruct (py_contains "list" res) as [|[]] eqn:H3; try discriminate.
  destruct (py_getitem res "list") as [|lst] eqn:H4; try discriminate.
  destruct (py_contains "incidents" lst) as [|[]] eqn:H5; try discriminate.
  intros _. by exists res, lst.
Qed.

(** A loop that appends no record gives no table. *)
Lemma process_no_records (data : pyval) (items : list pyval) (result : LoadResult) :
  incidents_of data items → collect_records items [] = inr [] →
  process parse_number data ≠ inr (Some result).
Proof.
  intros Hitems Hc Hp.
  destruct (process_some _ _ _ Hp) as (items' & records & Hitems' & Hc' & _).
  rewrite <- (incidents_of_functional _ _ _ Hitems Hitems') in Hc'.
  assert (records = []) as -> by congruence.
  revert Hp. destruct Hitems as (res & lst & incidents & H1 & H2 & H3 & H4).
  unfold process, ebind. rewrite H1, H2, H3, H4, Hc. simpl.
  destruct (py_contains "result" data) as [|[]]; try discriminate.
  destruct (py_contains "list" res) as [|[]]; try discriminate.
  destruct (py_contains "incidents" lst) as [|[]]; try discriminate.
  by destruct (py_len incidents).
Qed.

(** X15: [load_json_crime_data] returns [None] in these cases and in no
    other: the file cannot be opened or parsed, the document lacks the
    result / list / incidents structure, the processing of the document
    raises, or the loop over the incidents appends no record.  In every
    other case it returns a table. *)
Theorem load_json_none_iff (path : string) :
  load_json_crime_data read_json parse_number path = inr None ↔
  (∃ e, read_json path = inl e) ∨
  (∃ data, read_json path = inr data ∧
     (¬ has_incidents data ∨
      (∃ e, process parse_number data = inl e) ∨
      (∃ items, incidents_of data items ∧ collect_records items [] = inr []))).
Proof.
  rewrite load_of_body. unfold load_body, ebind.
  destruct (read_json path) as [e|data] eqn:Hread.
  - split; [intros _; left; eauto | done].
  - destruct (process parse_number data) as [e|[result|]] eqn:Hp.
    + split; [intros _; right; exists data; eauto | done].
    + split; [discriminate |].
      intros [[e He] | (data' & [= <-] & [Hno | [[e He] | (items & Hitems & Hc)]])].
      * discriminate He.
      * by destruct (process_no_incidents _ _ Hno Hp).
      * congruence.
      * by destruct (process_no_records _ _ _ Hitems Hc Hp).
    + split; [| done]. intros _. right. exists data. split; [done |].
      destruct (process_none _ Hp) as [Hno | Hitems]; eauto.
Qed.

(** X16: one incident whose record cannot be built - its coordinates
    hold fewer than two values, say - makes [load_json_crime_data] give
    up the whole file: the exception leaves the loop, the last [except]
    clause catches it and the function returns [None], whatever the other
    incidents are. *)
Theorem malformed_incident_discards_file
    (path : string) (data : pyval) (items : list pyval) (incident : pyval) (e : exn) :
  read_json path = inr data →
  incidents_of data items →
  incident ∈ items →
  incident_record incident = inl e →
  load_json_crime_data read_json parse_number path = inr None.
Proof.
  intros Hread Hitems Hin Hrec.
  rewrite load_of_body. unfold load_body, ebind. rewrite Hread.
  destruct (process parse_number data) as [e'|[result|]] eqn:Hp; try done.
  destruct (process_some _ _ _ Hp) as (items' & records & Hitems' & Hc & _).
  rewrite <- (incidents_of_functional _ _ _ Hitems Hitems') in Hc.
  destruct (collect_records_raises items [] incident e Hin Hrec) as [e' He'].
  congruence.
Qed.

(** The columns of a loaded table have the names of the code. *)
Lemma loaded_names (path : string) (df : list Row) (a b c d : string) :
  load_json_crime_data read_json parse_number path = inr (Some (df, a, b, c, d)) →
  (a, b, c, d) = ("latitude", "longitude", "parent_incident_type", "date").
Proof.
  intros Hload.
  destruct (load_some_inv _ _ _ _ Hload) as (data & _ & Hproc).
  destruct (process_some _ _ _ Hproc) as (items & records & _ & _ & Heq).
  by inversion Heq.
Qed.

(** The rows of a loaded table lie in the window. *)
Lemma loaded_rows_in_window (path : string) (df : list Row) (a b c d : string) :
  load_json_crime_data read_json parse_number path = inr (Some (df, a, b, c, d)) →
  ∀ row, row ∈ df → coordinates_in_window row.
Proof.
  intros Hload row.
  destruct (load_some_inv _ _ _ _ Hload) as (data & _ & Hproc).
  destruct (process_some _ _ _ Hproc) as (items & records & _ & _ & Heq).
  inversion Heq; subst; clear Heq. unfold dropna.
  rewrite !list_elem_of_filter, list_elem_of_fmap.
  intros (Hwin & Hnan & record & -> & _).
  apply kept_iff_in_window; [| done].
  destruct (to_numeric_float parse_number (latitude record)) as [f Hf].
  destruct (to_numeric_float parse_number (longitude record)) as [g Hg].
  exists f, g. simpl. done.
Qed.

End LoadJsonFurther.

Lemma malformed_incident_discards_file_witness :
  load_json_crime_data (λ _, inr short_document) sample_parse_number "short.json" = inr None.
Proof.
  apply (malformed_incident_discards_file (λ _, inr short_document) sample_parse_number
           "short.json" short_document
           [sample_incident 1 [VFloat (Fin (-869 # 10)); VFloat (Fin (404 # 10))];
            sample_incident 2 [VFloat (Fin (-869 # 10))]]
           (sample_incident 2 [VFloat (Fin (-869 # 10))])
           (IndexError "list index out of range")).
  - reflexivity.
  - eexists _, _, _. repeat split; reflexivity.
  - apply elem_of_cons. right. apply elem_of_cons. by left.
  - vm_compute. reflexivity.
Defined.

Lemma elem_of_concat {A} (x : A) (ls : list (list A)) :
  x ∈ concat ls ↔ ∃ l, x ∈ l ∧ l ∈ ls.
Proof.
  rewrite list_elem_of_In, in_concat.
  split; intros (l & H1 & H2); exists l; by rewrite ?list_elem_of_In in *.
Qed.

Section LoadMultipleProperties.

Variable read_json : string → exn + pyval.
Variable parse_number : string → option pyfloat.
Variable glob : string → list string.
Variable same_value : pyval → pyval → bool.

#[local] Abbreviation load := (load_json_crime_data read_json parse_number).
#[local] Abbreviation tables := (loaded_tables read_json parse_number).
#[local] Abbreviation distinct_ids :=
  (ForallOrdPairs (λ a b : Row, same_value (id a) (id b) = false)).

(** The loop never raises: it collects the tables of the files that
    load. *)
Lemma load_each_spec (json_files : list string) (all_dataframes : list (list Row)) :
  load_each read_json parse_number json_files all_dataframes
  = inr (all_dataframes ++ tables json_files)%list.
Proof.
  revert all_dataframes.
  induction json_files as [|f files IH]; intros acc; simpl.
  - by rewrite app_nil_r.
  - unfold loaded_tables. simpl. rewrite load_of_body. simpl.
    destruct (load_body read_json parse_number f) as [e|[[[[[df a] b] c] d]|]];
      rewrite IH; try done.
    by rewrite <- app_assoc.
Qed.

Lemma loaded_tables_elem (json_files : list string) (table : list Row) :
  table ∈ tables json_files ↔
  ∃ f, f ∈ json_files ∧
       load f = inr (Some (table, "latitude", "longitude", "parent_incident_type", "date")).
Proof.
  unfold loaded_tables. rewrite list_elem_of_omap. split.
  - intros (f & Hf & Hsome). exists f. split; [done |].
    destruct (load f) as [e|[[[[[df a] b] c] d]|]] eqn:Hload; try discriminate.
    injection Hsome as ->.
    by injection (loaded_names _ _ _ _ _ _ _ _ Hload) as -> -> -> ->.
  - intros (f & Hf & Hload). exists f. split; [done |]. by rewrite Hload.
Qed.

Lemma loaded_tables_nil (json_files : list string) :
  tables json_files = [] ↔ ∀ f, f ∈ json_files → load f = inr None.
Proof.
  induction json_files as [|f files IH].
  - split; [| done]. intros _ f Hf. by apply elem_of_nil in Hf.
  - unfold loaded_tables in *. simpl.
    destruct (load f) as [e|[[[[[df a] b] c] d]|]] eqn:Hload.
    + rewrite load_of_body in Hload. discriminate.
    + split; [discriminate |]. intros H.
      specialize (H f (list_elem_of_here _ _)). congruence.
    + rewrite IH. split.
      * intros H g Hg. apply elem_of_cons in Hg as [-> | Hg]; [done | by apply H].
      * intros H g Hg. apply H. by right.
Qed.

(** The rows that [keep_first] keeps, in their order. *)
Lemma keep_first_sublist (seen : list pyval) (df : list Row) :
  keep_first same_value seen df `sublist_of` df.
Proof.
  revert seen. induction df as [|r df IH]; intros seen; simpl; [constructor |].
  destruct (existsb _ seen); [apply sublist_cons | apply sublist_skip]; apply IH.
Qed.

Lemma keep_first_distinct (seen : list pyval) (df : list Row) :
  distinct_ids (keep_first same_value seen df) ∧
  ∀ r, r ∈ keep_first same_value seen df →
       ∀ v, v ∈ seen → same_value v (id r) = false.
Proof.
  revert seen. induction df as [|r df IH]; intros seen; simpl.
  - split; [constructor |]. intros r Hr. by apply elem_of_nil in Hr.
  - destruct (existsb _ seen) eqn:Hex; [apply IH |].
    destruct (IH (id r :: seen)) as [Hd Hs]. split.
    + constructor; [| done]. apply Forall_forall. intros r' Hr'.
      apply (Hs r' Hr'). by left.
    + intros r' Hr' v Hv. apply elem_of_cons in Hr' as [-> | Hr'].
      * destruct (same_value v (id r)) eqn:Hsame; [| done].
        assert (existsb (λ v, same_value v (id r)) seen = true); [| congruence].
        apply existsb_exists. exists v. split; [by apply list_elem_of_In | done].
      * apply (Hs r' Hr'). by right.
Qed.

Lemma keep_first_covers (seen : list pyval) (df : list Row) :
  (∀ r, r ∈ df → same_value (id r) (id r) = true) →
  ∀ r, r ∈ df →
       (∃ v, v ∈ seen ∧ same_value v (id r) = true) ∨
       (∃ kept, kept ∈ keep_first same_value seen df ∧
                same_value (id kept) (id r) = true).
Proof.
  revert seen. induction df as [|r0 df IH]; intros seen Hrefl r Hr.
  - by apply elem_of_nil in Hr.
  - simpl. destruct (existsb _ seen) eqn:Hex.
    + apply elem_of_cons in Hr as [-> | Hr].
      * left. apply existsb_exists in Hex as (v & Hv & Hsame).
        exists v. split; [by apply list_elem_of_In | done].
      * apply IH; [| done]. intros r' Hr'. apply Hrefl. by right.
    + apply elem_of_cons in Hr as [-> | Hr].
      * right. exists r0. split; [by left |]. apply Hrefl. by left.
      * destruct (IH (id r0 :: seen)) with (r := r)
          as [(v & Hv & Hsame) | (k & Hk & Hsame)];
          [intros r' Hr'; apply Hrefl; by right | done | |].
        -- apply elem_of_cons in Hv as [-> | Hv].
           ++ right. exists r0. split; [by left | done].
           ++ left. by exists v.
        -- right. exists k. split; [by right | done].
Qed.

Lemma keep_first_all (seen : list pyval) (df : list Row) :
  distinct_ids df →
  (∀ r, r ∈ df → ∀ v, v ∈ seen → same_value v (id r) = false) →
  keep_first same_value seen df = df.
Proof.
  intros Hd. revert seen. induction Hd as [|r df Hr Hd IH]; intros seen Hseen; [done |].
  simpl. destruct (existsb _ seen) eqn:Hex.
  - apply existsb_exists in Hex as (v & Hv & Hsame).
    rewrite (Hseen r (list_elem_of_here _ _) v) in Hsame; [done | by apply list_elem_of_In].
  - f_equal. apply IH. intros r' Hr' v Hv.
    apply elem_of_cons in Hv as [-> | Hv].
    + rewrite Forall_forall in Hr. by apply Hr.
    + apply Hseen; [by right | done].
Qed.

Lemma drop_duplicates_inv (df df' : list Row) :
  drop_duplicates same_value df = inr df' →
  df' = keep_first same_value [] df ∧ ∀ r, r ∈ df → hashable (id r) = true.
Proof.
  unfold drop_duplicates.
  destruct (List.find _ df) as [r|] eqn:Hfind; [discriminate |].
  intros [= <-]. split; [done |]. intros r Hr.
  apply list_elem_of_In in Hr.
  pose proof (find_none _ _ Hfind r Hr) as H. simpl in H.
  by destruct (hashable (id r)).
Qed.

Lemma drop_duplicates_raises (df : list Row) :
  (∃ e, drop_duplicates same_value df = inl e) ↔
  ∃ r, r ∈ df ∧ hashable (id r) = false.
Proof.
  unfold drop_duplicates.
  destruct (List.find _ df) as [r|] eqn:Hfind; split.
  - intros _. apply find_some in Hfind as [Hin Hr]. exists r.
    split; [by apply list_elem_of_In |]. by destruct (hashable (id r)).
  - eauto.
  - by intros [e He].
  - intros (r & Hr & Hh). apply list_elem_of_In in Hr.
    pose proof (find_none _ _ Hfind r Hr) as H. simpl in H.
    rewrite Hh in H. discriminate.
Qed.

Lemma load_multiple_unfold (file_pattern_or_list : FileArgument) :
  load_multiple_json_files read_json parse_number glob same_value file_pattern_or_list
  = match tables (json_files_of glob file_pattern_or_list) with
    | [] => inr None
    | _ :: _ =>
        let? combined_df :=
          drop_duplicates same_value
            (concat (tables (json_files_of glob file_pattern_or_list))) in
        inr (Some (combined_df, "latitude", "longitude", "parent_incident_type", "date"))
    end.
Proof. unfold load_multiple_json_files. by rewrite load_each_spec. Qed.

Lemma load_multiple_some (file_pattern_or_list : FileArgument)
    (df : list Row) (a b c d : string) :
  load_multiple_json_files read_json parse_number glob same_value file_pattern_or_list
    = inr (Some (df, a, b, c, d)) →
  (a, b, c, d) = ("latitude", "longitude", "parent_incident_type", "date") ∧
  drop_duplicates same_value (concat (tables (json_files_of glob file_pattern_or_list)))
    = inr df.
Proof.
  rewrite load_multiple_unfold.
  destruct (tables _) as [|t ts]; [discriminate |]. unfold ebind.
  destruct (drop_duplicates _ _) as [e|df']; [discriminate |].
  by intros [= -> -> -> -> ->].
Qed.

Lemma concat_tables_elem (json_files : list string) (row : Row) :
  row ∈ concat (tables json_files) ↔
  ∃ f table, f ∈ json_files ∧
    load f = inr (Some (table, "latitude", "longitude", "parent_incident_type", "date")) ∧
    row ∈ table.
Proof.
  rewrite elem_of_concat. split.
  - intros (table & Hrow & Ht). apply loaded_tables_elem in Ht as (f & Hf & Hload).
    by exists f, table.
  - intros (f & table & Hf & Hload & Hrow). exists table. split; [done |].
    apply loaded_tables_elem. by exists f.
Qed.

(** X17: [load_multiple_json_files] returns [None] exactly when none of
    its files loads - in particular when the pattern matches no file or
    the list is empty. *)
Theorem load_multiple_none_iff (file_pattern_or_list : FileArgument) :
  load_multiple_json_files read_json parse_number glob same_value file_pattern_or_list
    = inr None ↔
  ∀ f, f ∈ json_files_of glob file_pattern_or_list → load f = inr None.
Proof.
  rewrite load_multiple_unfold, <- loaded_tables_nil.
  destruct (tables _) as [|t ts]; [done |]. unfold ebind.
  by destruct (drop_duplicates _ _).
Qed.




End LoadMultipleProperties.

Lemma same_scalar_reflexive (v : pyval) : hashable v = true → same_scalar v v = true.
Proof.
  destruct v as [| b | z | f | s | l | d]; simpl; try done; intros _.
  - by destruct b.
  - apply Z.eqb_refl.
  - destruct f; try done. apply Qeq_bool_iff. reflexivity.
  - apply String.eqb_refl.
Qed.



(** Two files that share incident 1: the combined table has it once,
    followed by incident 8 of the second file. *)
Example load_multiple_sample :
  ∃ first second,
    load_multiple_json_files two_files_read_json sample_parse_number
      (λ _, ["a.json"; "missing.json"; "b.json"]) same_scalar (PathOrPattern "*.json")
    = inr (Some ([first; second], "latitude", "longitude", "parent_incident_type", "date")) ∧
    id first = VInt 1 ∧ id second = VInt 8.
Proof. eexists _, _. split; [vm_compute; reflexivity | split; reflexivity]. Qed.
